(** * CodeNarrator: the documentation pipeline of [src/analyzer.js]

    A shallow embedding of [analyzeCodebase] and the properties of its
    control flow: input validation, discovery, the per-file loop with its
    local error handler, the fixed delay between files and the final
    summary.

    The function is [async]; every collaborator call in it is awaited, so
    an [await f(x)] is embedded as a plain sequential call.  The outside
    world (filesystem, glob, the AI client, the markdown writer, the clock)
    is an abstract state [W] with the operations of [Host]; every call into
    it, with its outcome, and every console write is recorded in a trace of
    [Event]s.

    A JavaScript string is a Rocq string, one character for one code unit,
    so that [String.length] is the [length] property. *)

From Stdlib Require Import String Ascii List ZArith Lia Bool DecimalString.
Import ListNotations.
Open Scope string_scope.

(** ** JavaScript values *)

(** The values the caller can pass for [folderPath], [options.output] and
    [options.verbose].  A number is either an integer or NaN (every other
    number is truthy and not a string, like a non-zero integer); [VObject]
    is any object. *)
Inductive JsValue : Type :=
| VUndefined
| VNull
| VBool (b : bool)
| VNumber (n : Z)
| VNaN
| VString (s : string)
| VObject.

(** [ToBoolean]: what [!v] and [if (v)] test. *)
Definition ToBoolean (v : JsValue) : bool :=
  match v with
  | VUndefined | VNull | VNaN => false
  | VBool b => b
  | VNumber n => negb (n =? 0)%Z
  | VString s => negb (s =? "")
  | VObject => true
  end.

(** [typeof v === 'string'] *)
Definition is_string (v : JsValue) : bool :=
  match v with VString _ => true | _ => false end.

(** An [Error] object: its message and its stack ([None] is [undefined]). *)
Record JsError : Type := mkError { message : string; stack : option string }.

(** How a call ends: it returns a value or throws (for an awaited promise:
    it resolves or rejects). *)
Inductive Completion (A : Type) : Type :=
| Normal (a : A)
| Throw (e : JsError).
Arguments Normal {A} a.
Arguments Throw {A} e.

(** [options]: a property that is absent reads as [undefined]. *)
Record Options : Type := mkOptions {
  output : JsValue;
  model : JsValue;
  verbose : JsValue }.

(** The default of the parameter, [options = {}]. *)
Definition empty_options : Options :=
  {| output := VUndefined; model := VUndefined; verbose := VUndefined |}.

(** The second argument: [None] when the caller omits it. *)
Definition options_or_default (opts : option Options) : Options :=
  match opts with Some o => o | None => empty_options end.

(** ** Events *)

Inductive Stream : Type := Log | Warn | Error.

Inductive Event : Type :=
| EvConsole (s : Stream) (args : list JsValue)
| EvStdoutWrite (text : string)
| EvExistsSync (path : string) (r : bool)
| EvGlob (pattern : string) (r : Completion (list string))
| EvReadFileSync (file : string) (r : Completion string)
| EvCallGemini (prompt : string) (r : Completion string)
| EvWriteMarkdown (file doc : string) (out : JsValue) (r : Completion string)
| EvSetTimeout (ms : nat).

(** ** The host *)

(** What [analyzer.js] imports or gets from the runtime.  [callGemini] and
    [writeMarkdown] are the two collaborators of the repository
    ([aiEngine.js], [writer.js]): a prompt in, text out, or a failure with
    a descriptive message; a source path, a documentation string and the
    output root in, the destination path out, or a write failure.  What a
    call throws is an [Error] object, with its message and its stack.
    The operations that touch the outside world take the world and return
    the next one; [existsSync] only looks at it.  The functions of [path]
    and [process.cwd()] are total on strings; [invalid_arg_type v] is the
    [TypeError] of [path.resolve(v)] for a [v] that is not a string;
    [trim] is [String.prototype.trim]; [error_stack msg] is the stack the
    engine records for [new Error(msg)]. *)
Record Host (W : Type) : Type := mkHost {
  existsSync : string -> W -> bool;
  glob : string -> W -> Completion (list string) * W;
  readFileSync : string -> W -> Completion string * W;
  callGemini : string -> W -> Completion string * W;
  writeMarkdown : string -> string -> JsValue -> W -> Completion string * W;
  setTimeout : nat -> W -> W;
  path_relative : string -> string -> string;
  path_resolve : string -> string;
  invalid_arg_type : JsValue -> JsError;
  process_cwd : string;
  trim : string -> string;
  error_stack : string -> string }.
Arguments existsSync {W} _ _ _.
Arguments glob {W} _ _ _.
Arguments readFileSync {W} _ _ _.
Arguments callGemini {W} _ _ _.
Arguments writeMarkdown {W} _ _ _ _ _.
Arguments setTimeout {W} _ _ _.
Arguments path_relative {W} _ _ _.
Arguments path_resolve {W} _ _.
Arguments invalid_arg_type {W} _ _.
Arguments process_cwd {W} _.
Arguments trim {W} _ _.
Arguments error_stack {W} _ _.

(** ** Strings and numbers in template literals *)

Definition nl : string := String (ascii_of_nat 10) EmptyString.
Definition cr : string := String (ascii_of_nat 13) EmptyString.

(** [`${n}`] for a non-negative integer and for an integer. *)
Definition nat_str (n : nat) : string := NilZero.string_of_uint (Nat.to_uint n).
Definition int_str (z : Z) : string := NilZero.string_of_int (Z.to_int z).

(** [' '.repeat(n)] *)
Fixpoint spaces (n : nat) : string :=
  match n with
  | O => EmptyString
  | S k => String " " (spaces k)
  end.

(** [s.split('\n')] *)
Fixpoint split_lines (s : string) : list string :=
  match s with
  | EmptyString => [EmptyString]
  | String c rest =>
      if Ascii.eqb c (ascii_of_nat 10) then EmptyString :: split_lines rest
      else match split_lines rest with
           | hd :: tl => String c hd :: tl
           | [] => [String c EmptyString]
           end
  end.

(** [(len / 1024).toFixed(2)]: [len / 1024] is exact in a double, and
    [toFixed] rounds its exact value to the nearest hundredth, the larger
    one on a tie. *)
Definition kb_toFixed2 (len : nat) : string :=
  let hundredths := ((100 * len + 512) / 1024)%nat in
  nat_str (hundredths / 100) ++ "." ++
  nat_str (hundredths mod 100 / 10) ++ nat_str (hundredths mod 10).

(** [files.slice(0, 5).forEach((file, i) => ...)]: the lines it logs. *)
Fixpoint first_files_lines (i : nat) (files : list string) : list Event :=
  match files with
  | [] => []
  | file :: rest =>
      EvConsole Log [VString ("  " ++ nat_str (i + 1) ++ ". " ++ file)]
      :: first_files_lines (S i) rest
  end.

(** The prompt of lines 80-90: the instruction template, the relative path
    and the content. *)
Definition prompt_template : string :=
  "Generate comprehensive documentation for the following JavaScript file." ++ nl ++
  "Include:" ++ nl ++
  "1. File purpose and functionality" ++ nl ++
  "2. Key functions/classes with descriptions" ++ nl ++
  "3. Inputs/outputs" ++ nl ++
  "4. Dependencies" ++ nl ++
  "5. Any important notes or warnings" ++ nl ++
  nl ++
  "File: ".

Definition build_prompt (relativePath fileContent : string) : string :=
  prompt_template ++ relativePath ++ nl ++ nl ++ fileContent.

(** [files.entries()] *)
Definition entries (files : list string) : list (nat * string) :=
  combine (seq 0 (length files)) files.

(** ** The pipeline *)

Section Analyzer.

Context {W : Type} (host : Host W).

(** A computation reads the world and gives a completion, the next world
    and the events it emitted. *)
Definition M (A : Type) : Type := W -> Completion A * W * list Event.

Definition ret {A : Type} (a : A) : M A := fun w => (Normal a, w, []).

Definition throw {A : Type} (e : JsError) : M A := fun w => (Throw e, w, []).

Definition bind {A B : Type} (m : M A) (k : A -> M B) : M B :=
  fun w =>
    match m w with
    | (Normal a, w1, t1) =>
        match k a w1 with
        | (r, w2, t2) => (r, w2, (t1 ++ t2)%list)
        end
    | (Throw e, w1, t1) => (Throw e, w1, t1)
    end.

(** [try { body } catch (error) { handler }] *)
Definition try_catch {A : Type} (body : M A) (handler : JsError -> M A) : M A :=
  fun w =>
    match body w with
    | (Normal a, w1, t1) => (Normal a, w1, t1)
    | (Throw e, w1, t1) =>
        match handler e w1 with
        | (r, w2, t2) => (r, w2, (t1 ++ t2)%list)
        end
    end.

Definition emit (e : Event) : M unit := fun w => (Normal tt, w, [e]).

Definition emit_all (es : list Event) : M unit := fun w => (Normal tt, w, es).

Definition when (b : bool) (m : M unit) : M unit := if b then m else ret tt.

Notation "x <- c1 ;; c2" := (bind c1 (fun x => c2))
  (at level 61, c1 at next level, right associativity).
Notation "c1 ;; c2" := (bind c1 (fun _ => c2))
  (at level 61, right associativity).

Definition console_log (s : string) : M unit := emit (EvConsole Log [VString s]).
Definition console_warn (s : string) : M unit := emit (EvConsole Warn [VString s]).
Definition console_error (args : list JsValue) : M unit := emit (EvConsole Error args).
Definition stdout_write (s : string) : M unit := emit (EvStdoutWrite s).

(** [new Error(msg)] *)
Definition new_Error (msg : string) : JsError :=
  {| message := msg; stack := Some (error_stack host msg) |}.

(** Calls into the host, recorded with their outcome. *)
Definition fs_existsSync (p : string) : M bool :=
  fun w => let r := existsSync host p w in (Normal r, w, [EvExistsSync p r]).

Definition call_glob (pattern : string) : M (list string) :=
  fun w => let '(r, w1) := glob host pattern w in (r, w1, [EvGlob pattern r]).

Definition fs_readFileSync (file : string) : M string :=
  fun w => let '(r, w1) := readFileSync host file w in (r, w1, [EvReadFileSync file r]).

Definition call_callGemini (prompt : string) : M string :=
  fun w => let '(r, w1) := callGemini host prompt w in (r, w1, [EvCallGemini prompt r]).

Definition call_writeMarkdown (file doc : string) (out : JsValue) : M string :=
  fun w =>
    let '(r, w1) := writeMarkdown host file doc out w in
    (r, w1, [EvWriteMarkdown file doc out r]).

(** [await new Promise(resolve => setTimeout(resolve, ms))] *)
Definition sleep (ms : nat) : M unit :=
  fun w => (Normal tt, setTimeout host ms w, [EvSetTimeout ms]).

(** [path.resolve(v)]: a [TypeError] unless [v] is a string. *)
Definition path_resolve_value (v : JsValue) : M string :=
  match v with
  | VString s => ret (path_resolve host s)
  | _ => throw (invalid_arg_type host v)
  end.

(** [error.stack?.split('\n')[1]?.trim() || 'No stack trace'] *)
Definition first_stack_frame (error : JsError) : string :=
  match stack error with
  | None => "No stack trace"
  | Some s =>
      match nth_error (split_lines s) 1 with
      | None => "No stack trace"
      | Some line =>
          let t := trim host line in
          if (t =? "") then "No stack trace" else t
      end
  end.

Definition stack_value (error : JsError) : JsValue :=
  match stack error with
  | None => VUndefined
  | Some s => VString s
  end.

(** The counters [successCount] and [errorCount]. *)
Definition Counts : Type := (nat * nat)%type.

Section Loop.

Variables (folderPath : string) (options : Options) (files_length : nat).

(** Lines 65-109: the [try] and its [catch] for one file. *)
Definition process_file (index : nat) (file : string) (counts : Counts) : M Counts :=
  let '(successCount, errorCount) := counts in
  let relativePath := path_relative host folderPath file in
  let progress := "[" ++ nat_str (index + 1) ++ "/" ++ nat_str files_length ++ "]" in
  try_catch
    ((if ToBoolean (verbose options) then
        console_log (nl ++ progress ++ " 📄 Processing: " ++ relativePath) ;;
        console_log ("   📍 Full path: " ++ path_resolve host file)
      else
        stdout_write (cr ++ progress ++ " Processing: " ++ relativePath ++ "...")) ;;
     fileContent <- fs_readFileSync file ;;
     when (ToBoolean (verbose options))
       (console_log ("   📊 File size: " ++ kb_toFixed2 (String.length fileContent) ++ " KB") ;;
        console_log "   🤖 Sending to AI for documentation...") ;;
     let prompt := build_prompt relativePath fileContent in
     documentation <- call_callGemini prompt ;;
     outputPath <- call_writeMarkdown file documentation (output options) ;;
     when (ToBoolean (verbose options))
       (console_log ("   ✅ Successfully documented: " ++
                     path_relative host (process_cwd host) outputPath)) ;;
     ret (S successCount, errorCount))
    (fun error =>
       let errorCount := S errorCount in
       let errorMsg := "❌ Error processing " ++ relativePath ++ ": " ++ message error in
       (if ToBoolean (verbose options) then
          console_error [VString (nl ++ spaces (String.length progress + 1) ++ errorMsg)] ;;
          console_error [VString "   Stack:"; VString (first_stack_frame error)]
        else
          console_error [VString (nl ++ progress ++ " " ++ errorMsg)]) ;;
       ret (successCount, errorCount)).

(** Lines 61-115: one iteration, the file and then the delay. *)
Definition iteration (index : nat) (file : string) (counts : Counts) : M Counts :=
  counts' <- process_file index file counts ;;
  when (Z.of_nat index <? Z.of_nat files_length - 1)%Z (sleep 500) ;;
  ret counts'.

(** [for (const [index, file] of files.entries()) { ... }] *)
Fixpoint for_entries (es : list (nat * string)) (counts : Counts) : M Counts :=
  match es with
  | [] => ret counts
  | (index, file) :: rest =>
      counts' <- iteration index file counts ;;
      for_entries rest counts'
  end.

End Loop.

(** Lines 24-124: the body of the outer [try]. *)
Definition analyze_body (folderPath : string) (options : Options) : M unit :=
  found <- fs_existsSync folderPath ;;
  if negb found then throw (new_Error ("Folder does not exist: " ++ folderPath))
  else
    let pattern := folderPath ++ "/**/*.js" in
    when (ToBoolean (verbose options))
      (console_log ("🔍 Searching for JavaScript files matching: " ++ pattern)) ;;
    files <- call_glob pattern ;;
    if (length files =? 0)%nat then
      let warning := "⚠️  No JavaScript files found in the specified directory" in
      (if ToBoolean (verbose options) then
         console_warn warning ;;
         console_log "  - Make sure the path is correct and contains .js files" ;;
         console_log ("  - Current working directory: " ++ process_cwd host)
       else
         console_warn warning)
    else
      console_log ("📂 Found " ++ nat_str (length files) ++ " JavaScript files to process...") ;;
      when (ToBoolean (verbose options))
        (console_log "  First few files:" ;;
         emit_all (first_files_lines 0 (firstn 5 files)) ;;
         console_log ("  ...and " ++ int_str (Z.of_nat (length files) - 5) ++ " more")) ;;
      counts <- for_entries folderPath options (length files) (entries files) (0, 0) ;;
      let '(successCount, errorCount) := counts in
      console_log (nl ++ "📊 Documentation generation complete!") ;;
      console_log ("✅ " ++ nat_str successCount ++ " files successfully documented") ;;
      when (0 <? errorCount)%nat
        (console_warn ("⚠️  " ++ nat_str errorCount ++
                       " files had errors (see above for details)")) ;;
      resolved <- path_resolve_value (output options) ;;
      console_log ("📂 Output directory: " ++ resolved).

(** Lines 125-131: the outer [catch]. *)
Definition analyze_handler (options : Options) (error : JsError) : M unit :=
  console_error [VString (nl ++ "❌ Analysis failed:"); VString (message error)] ;;
  when (ToBoolean (verbose options))
    (console_error [VString "Stack:"; stack_value error]) ;;
  throw error.

(** [analyzeCodebase(folderPath, options = {})]; [None] is an omitted (or
    [undefined]) second argument. *)
Definition analyzeCodebase (folderPath : JsValue) (opts : option Options) : M unit :=
  let options := options_or_default opts in
  if negb (ToBoolean folderPath) || negb (is_string folderPath) then
    throw (new_Error "Invalid folder path")
  else if negb (ToBoolean (output options)) then
    throw (new_Error "Output directory must be specified")
  else
    match folderPath with
    | VString folder =>
        try_catch (analyze_body folder options) (analyze_handler options)
    | _ => throw (new_Error "Invalid folder path") (* not reached: not a string *)
    end.

End Analyzer.

(** ** Reading a run *)

Definition result_of {A W : Type} (run : Completion A * W * list Event) : Completion A :=
  fst (fst run).

Definition trace_of {A W : Type} (run : Completion A * W * list Event) : list Event :=
  snd run.

(** The per-file steps: the read, the AI call and the write. *)
Definition is_call (e : Event) : bool :=
  match e with
  | EvReadFileSync _ _ | EvCallGemini _ _ | EvWriteMarkdown _ _ _ _ => true
  | _ => false
  end.

Definition calls (tr : list Event) : list Event := filter is_call tr.

(** The AI Client and the Markdown Writer. *)
Definition is_ai_or_write (e : Event) : bool :=
  match e with
  | EvCallGemini _ _ | EvWriteMarkdown _ _ _ _ => true
  | _ => false
  end.

Definition is_glob (e : Event) : bool :=
  match e with EvGlob _ _ => true | _ => false end.

Definition is_delay (e : Event) : bool :=
  match e with EvSetTimeout _ => true | _ => false end.

Definition delays (tr : list Event) : list Event := filter is_delay tr.

(** The file of a read. *)
Definition read_file (e : Event) : option string :=
  match e with EvReadFileSync file _ => Some file | _ => None end.

Fixpoint files_read (tr : list Event) : list string :=
  match tr with
  | [] => []
  | e :: rest =>
      match read_file e with
      | Some file => file :: files_read rest
      | None => files_read rest
      end
  end.

(** The exception a per-file step raised, if it raised one. *)
Definition thrown_by (e : Event) : option JsError :=
  match e with
  | EvReadFileSync _ (Throw err) => Some err
  | EvCallGemini _ (Throw err) => Some err
  | EvWriteMarkdown _ _ _ (Throw err) => Some err
  | _ => None
  end.

(** The exceptions the per-file steps of a trace raised, in order. *)
Fixpoint raised (tr : list Event) : list JsError :=
  match tr with
  | [] => []
  | e :: rest =>
      match thrown_by e with
      | Some err => err :: raised rest
      | None => raised rest
      end
  end.

(** Every per-file step of the trace succeeded. *)
Definition all_steps_succeed (tr : list Event) : Prop := raised tr = [].

(** The error handler of the loop reported the file and the message:
    [console.error] was called with a text that ends with [errorMsg]. *)
Definition reports (tr : list Event) (relativePath : string) (err : JsError) : Prop :=
  exists lead,
    In (EvConsole Error
          [VString (lead ++ "❌ Error processing " ++ relativePath ++ ": " ++ message err)])
       tr.

(** The outer handler logged the error: [console.error] was called with
    the heading and the message. *)
Definition logged (tr : list Event) (err : JsError) : Prop :=
  In (EvConsole Error [VString (nl ++ "❌ Analysis failed:"); VString (message err)]) tr.

(** Discovery returned [files] in this run. *)
Definition discovered {A W : Type} (run : Completion A * W * list Event)
  (files : list string) : Prop :=
  exists pattern, In (EvGlob pattern (Normal files)) (trace_of run).

(** The iterations that end with a delay: [index < files.length - 1]. *)
Definition delayed (files_length : nat) (es : list (nat * string)) : list (nat * string) :=
  filter (fun entry => (Z.of_nat (fst entry) <? Z.of_nat files_length - 1)%Z) es.

(** The steps of one file, in the order the code takes them: the read,
    then the AI call on the prompt built from what was read, then the
    write of what the AI returned; the block stops at the first step that
    throws. *)
Inductive FileBlock (relativePath : string) (out : JsValue) (file : string) :
  list Event -> Prop :=
| block_read_throws err :
    FileBlock relativePath out file [EvReadFileSync file (Throw err)]
| block_ai_throws content err :
    FileBlock relativePath out file
      [EvReadFileSync file (Normal content);
       EvCallGemini (build_prompt relativePath content) (Throw err)]
| block_write content doc r :
    FileBlock relativePath out file
      [EvReadFileSync file (Normal content);
       EvCallGemini (build_prompt relativePath content) (Normal doc);
       EvWriteMarkdown file doc out r].

(** The steps of a run over [files]: the block of the first file, whole,
    then the blocks of the others. *)
Inductive Sequential (relative : string -> string) (out : JsValue) :
  list string -> list Event -> Prop :=
| sequential_nil : Sequential relative out [] []
| sequential_cons file files block rest :
    FileBlock (relative file) out file block ->
    Sequential relative out files rest ->
    Sequential relative out (file :: files) (block ++ rest)%list.

(** The argument is a non-empty string.  The code tests
    [!folderPath || typeof folderPath !== 'string']; [valid_folder_test]
    below shows that this is the negation. *)
Definition valid_folder (v : JsValue) : bool :=
  match v with
  | VString s => negb (s =? "")
  | _ => false
  end.

(** The two lines of the console the properties name. *)
Definition summary_line (successCount : nat) : Event :=
  EvConsole Log [VString ("✅ " ++ nat_str successCount ++ " files successfully documented")].

Definition no_files_warning : Event :=
  EvConsole Warn [VString "⚠️  No JavaScript files found in the specified directory"].

(** ** What a run looks like *)

Section Shapes.

Context {W : Type} (host : Host W).
Variables (folderPath : string) (options : Options) (files_length : nat).

(** The delay that ends the iteration of [index] (lines 112-114). *)
Definition delay_after (index : nat) : list Event :=
  if (Z.of_nat index <? Z.of_nat files_length - 1)%Z then [EvSetTimeout 500] else [].

(** One pass through the [try]/[catch] of lines 65-109, entered with the
    counters [s] and [e], left with [counts'] after the events [t]. *)
Record FileRun (file : string) (s e : nat) (counts' : Counts) (t : list Event) : Prop := {
  run_counts : counts' = (S s, e) \/ counts' = (s, S e);
  run_block :
    FileBlock (path_relative host folderPath file) (output options) file (calls t);
  run_no_delay : delays t = [];
  run_no_glob : filter is_glob t = [];
  run_success : all_steps_succeed t -> counts' = (S s, e);
  run_failure :
    forall err, In err (raised t) ->
      counts' = (s, S e) /\ reports t (path_relative host folderPath file) err }.

(** The loop of lines 61-115 over the entries [es], entered with the
    counters [s] and [e], left with [s'] and [e'] after the events [t]. *)
Record LoopRun (es : list (nat * string)) (s e s' e' : nat) (t : list Event) : Prop := {
  loop_total : s' + e' = s + e + length es;
  loop_success_grows : s <= s';
  loop_sequential :
    Sequential (path_relative host folderPath) (output options) (map snd es) (calls t);
  loop_delays : delays t = repeat (EvSetTimeout 500) (length (delayed files_length es));
  loop_no_glob : filter is_glob t = [];
  loop_all_succeed : all_steps_succeed t -> s' = s + length es /\ e' = e;
  loop_reports :
    forall err, In err (raised t) ->
      exists file,
        In file (map snd es) /\ reports t (path_relative host folderPath file) err }.

End Shapes.

(** The ways a call of [analyzeCodebase] can go: the two validation
    errors of lines 16-22, the missing folder, a discovery that throws, a
    discovery that finds nothing, and the loop with its summary. *)
Inductive RunShape {W : Type} (host : Host W) (fp : JsValue) (opts : option Options)
  (w : W) : Completion unit * W * list Event -> Prop :=
| shape_invalid_folder :
    valid_folder fp = false ->
    RunShape host fp opts w (Throw (new_Error host "Invalid folder path"), w, [])
| shape_no_output :
    valid_folder fp = true ->
    ToBoolean (output (options_or_default opts)) = false ->
    RunShape host fp opts w
      (Throw (new_Error host "Output directory must be specified"), w, [])
| shape_missing_folder folder t :
    fp = VString folder ->
    valid_folder fp = true ->
    ToBoolean (output (options_or_default opts)) = true ->
    existsSync host folder w = false ->
    filter is_glob t = [] ->
    calls t = [] ->
    delays t = [] ->
    logged t (new_Error host ("Folder does not exist: " ++ folder)) ->
    RunShape host fp opts w
      (Throw (new_Error host ("Folder does not exist: " ++ folder)), w, t)
| shape_discovery_throws folder err w1 t :
    fp = VString folder ->
    valid_folder fp = true ->
    ToBoolean (output (options_or_default opts)) = true ->
    existsSync host folder w = true ->
    glob host (folder ++ "/**/*.js") w = (Throw err, w1) ->
    filter is_glob t = [EvGlob (folder ++ "/**/*.js") (Throw err)] ->
    calls t = [] ->
    delays t = [] ->
    logged t err ->
    RunShape host fp opts w (Throw err, w1, t)
| shape_no_files folder w1 t :
    fp = VString folder ->
    valid_folder fp = true ->
    ToBoolean (output (options_or_default opts)) = true ->
    existsSync host folder w = true ->
    glob host (folder ++ "/**/*.js") w = (Normal [], w1) ->
    filter is_glob t = [EvGlob (folder ++ "/**/*.js") (Normal [])] ->
    calls t = [] ->
    delays t = [] ->
    In no_files_warning t ->
    RunShape host fp opts w (Normal tt, w1, t)
| shape_files folder files w1 s e w2 t_loop r t :
    fp = VString folder ->
    valid_folder fp = true ->
    ToBoolean (output (options_or_default opts)) = true ->
    existsSync host folder w = true ->
    glob host (folder ++ "/**/*.js") w = (Normal files, w1) ->
    files <> [] ->
    for_entries host folder (options_or_default opts) (length files) (entries files)
      (0, 0) w1 = (Normal (s, e), w2, t_loop) ->
    filter is_glob t = [EvGlob (folder ++ "/**/*.js") (Normal files)] ->
    calls t = calls t_loop ->
    delays t = delays t_loop ->
    In (summary_line s) t ->
    r = Normal tt \/
    (is_string (output (options_or_default opts)) = false /\
     r = Throw (invalid_arg_type host (output (options_or_default opts)))) ->
    RunShape host fp opts w (r, w2, t).

(** ** More readings of a run *)

Definition world_of {A W : Type} (run : Completion A * W * list Event) : W :=
  snd (fst run).

(** The kinds of per-file steps, and the ones that returned. *)
Definition is_read (e : Event) : bool :=
  match e with EvReadFileSync _ _ => true | _ => false end.

Definition is_read_ok (e : Event) : bool :=
  match e with EvReadFileSync _ (Normal _) => true | _ => false end.

Definition is_ai (e : Event) : bool :=
  match e with EvCallGemini _ _ => true | _ => false end.

Definition is_ai_ok (e : Event) : bool :=
  match e with EvCallGemini _ (Normal _) => true | _ => false end.

Definition is_write (e : Event) : bool :=
  match e with EvWriteMarkdown _ _ _ _ => true | _ => false end.

Definition is_write_ok (e : Event) : bool :=
  match e with EvWriteMarkdown _ _ _ (Normal _) => true | _ => false end.

(** How many events of a kind a trace has. *)
Definition count (p : Event -> bool) (tr : list Event) : nat := length (filter p tr).

(** What is shown to the user: the console and the standard output. *)
Definition is_display (e : Event) : bool :=
  match e with
  | EvConsole _ _ | EvStdoutWrite _ => true
  | _ => false
  end.

(** What a run does besides showing text: the calls into the filesystem,
    the glob, the AI Client, the Markdown Writer and the timer. *)
Definition effects (tr : list Event) : list Event :=
  filter (fun e => negb (is_display e)) tr.


Definition is_warn (e : Event) : bool :=
  match e with EvConsole Warn _ => true | _ => false end.

(** The warning of line 121. *)
Definition error_warning (errorCount : nat) : Event :=
  EvConsole Warn
    [VString ("⚠️  " ++ nat_str errorCount ++ " files had errors (see above for details)")].


(** The string has no line feed. *)
Fixpoint one_line (s : string) : bool :=
  match s with
  | EmptyString => true
  | String c rest => negb (Ascii.eqb c (ascii_of_nat 10)) && one_line rest
  end.

(** The events of a run before its loop, when the folder exists and
    discovery returned [files]; [analyzeCodebase_files] proves that they
    are what the code emits. *)
Definition intro_events (options : Options) (folder : string) (files : list string) :
  list Event :=
  ([EvExistsSync folder true] ++
   (if ToBoolean (verbose options) then
      [EvConsole Log
         [VString ("🔍 Searching for JavaScript files matching: " ++ folder ++ "/**/*.js")]]
    else []) ++
   [EvGlob (folder ++ "/**/*.js") (Normal files);
    EvConsole Log
      [VString ("📂 Found " ++ nat_str (length files) ++ " JavaScript files to process...")]] ++
   (if ToBoolean (verbose options) then
      [EvConsole Log [VString "  First few files:"]] ++
      first_files_lines 0 (firstn 5 files) ++
      [EvConsole Log
         [VString ("  ...and " ++ int_str (Z.of_nat (length files) - 5) ++ " more")]]
    else []))%list.

(** The events of a run after its loop, which left the counters
    [successCount] and [errorCount]: the summary and, when [path.resolve]
    throws, the log of the outer handler. *)
Definition summary_events {W : Type} (host : Host W) (options : Options)
  (successCount errorCount : nat) : list Event :=
  ([EvConsole Log [VString (nl ++ "📊 Documentation generation complete!")];
    summary_line successCount] ++
   (if (0 <? errorCount)%nat then [error_warning errorCount] else []) ++
   match output options with
   | VString o =>
       [EvConsole Log [VString ("📂 Output directory: " ++ path_resolve host o)]]
   | v =>
       [EvConsole Error
          [VString (nl ++ "❌ Analysis failed:");
           VString (message (invalid_arg_type host v))]] ++
       (if ToBoolean (verbose options) then
          [EvConsole Error [VString "Stack:"; stack_value (invalid_arg_type host v)]]
        else [])
   end)%list.

(** How such a run ends. *)
Definition summary_result {W : Type} (host : Host W) (options : Options) : Completion unit :=
  match output options with
  | VString _ => Normal tt
  | v => Throw (invalid_arg_type host v)
  end.

(** The per-file steps and the delays. *)
Definition is_step (e : Event) : bool := is_call e || is_delay e.

Definition steps (tr : list Event) : list Event := filter is_step tr.

(** The steps of a run over [files] with its delays: the block of each
    file, and one delay of 500 ms between the block of a file and the
    block of the next; none before the first block, none after the last. *)
Inductive Paced (relative : string -> string) (out : JsValue) :
  list string -> list Event -> Prop :=
| paced_nil : Paced relative out [] []
| paced_last file block :
    FileBlock (relative file) out file block ->
    Paced relative out [file] block
| paced_cons file next files block rest :
    FileBlock (relative file) out file block ->
    Paced relative out (next :: files) rest ->
    Paced relative out (file :: next :: files) (block ++ EvSetTimeout 500 :: rest)%list.

(** What comes next is the read of a file, or nothing. *)
Definition next_is_read (after : list Event) : Prop :=
  after = [] \/ exists file r rest, after = EvReadFileSync file r :: rest.

(** What stands around a per-file step [ev] in the per-file steps of a
    run, [before ++ ev :: after]: a read that threw and an AI call that
    threw are followed by the read of another file or by nothing; a read
    that returned is followed by the AI call on the prompt of that file;
    an AI call stands right after the read of its file, and when it
    returned it is followed by the write, for that file, of what it
    returned; a write stands right after the read and the AI call of its
    file and is followed by the read of another file or by nothing. *)
Inductive StepRule (relative : string -> string) (out : JsValue) :
  list Event -> Event -> list Event -> Prop :=
| rule_read_throws before file err after :
    next_is_read after ->
    StepRule relative out before (EvReadFileSync file (Throw err)) after
| rule_read_returns before file content r rest :
    StepRule relative out before (EvReadFileSync file (Normal content))
      (EvCallGemini (build_prompt (relative file) content) r :: rest)
| rule_ai_throws before file content err after :
    next_is_read after ->
    StepRule relative out (before ++ [EvReadFileSync file (Normal content)])
      (EvCallGemini (build_prompt (relative file) content) (Throw err)) after
| rule_ai_returns before file content doc r rest :
    StepRule relative out (before ++ [EvReadFileSync file (Normal content)])
      (EvCallGemini (build_prompt (relative file) content) (Normal doc))
      (EvWriteMarkdown file doc out r :: rest)
| rule_write before file content doc r after :
    next_is_read after ->
    StepRule relative out
      (before ++ [EvReadFileSync file (Normal content);
                  EvCallGemini (build_prompt (relative file) content) (Normal doc)])
      (EvWriteMarkdown file doc out r) after.

(** ** A host to run the pipeline on *)

(** A small deterministic host: the folder [src] exists, discovery ends
    as [discovery] says, a file's content is a comment with its name, the
    AI Client answers with the length of the prompt and fails on the calls
    chosen by [fail_on] (the world counts the AI calls made so far), and
    the writer accepts a string as output root. *)
Module Demo.

Fixpoint strip_prefix (p s : string) : string :=
  match p, s with
  | String a p', String b s' => if Ascii.eqb a b then strip_prefix p' s' else s
  | _, _ => s
  end.

Fixpoint trim_left (s : string) : string :=
  match s with
  | String c rest => if Ascii.eqb c " " then trim_left rest else s
  | EmptyString => EmptyString
  end.

Definition quota : JsError :=
  {| message := "quota exceeded";
     stack := Some ("Error: quota exceeded" ++ nl ++ "    at callGemini (aiEngine.js)") |}.

Definition denied : JsError :=
  {| message := "EACCES: permission denied, scandir 'src'"; stack := None |}.

Definition host (discovery : Completion (list string)) (fail_on : nat -> bool) : Host nat :=
  {| existsSync := fun p _ => (p =? "src");
     glob := fun _ w => (discovery, w);
     readFileSync := fun file w => (Normal ("// " ++ file), w);
     callGemini := fun prompt w =>
       (if fail_on w then Throw quota
        else Normal ("DOC:" ++ nat_str (String.length prompt)), S w);
     writeMarkdown := fun file _ out w =>
       (match out with
        | VString o => Normal (o ++ "/" ++ file ++ ".md")
        | _ => Throw {| message := "invalid output root"; stack := None |}
        end, w);
     setTimeout := fun _ w => w;
     path_relative := fun from to => strip_prefix (from ++ "/") to;
     path_resolve := fun s => "/work/" ++ s;
     invalid_arg_type := fun _ =>
       {| message := "The paths[0] argument must be of type string"; stack := None |};
     process_cwd := "/work";
     trim := trim_left;
     error_stack := fun msg =>
       "Error: " ++ msg ++ nl ++ "    at analyzeCodebase (analyzer.js)" |}.

Definition three_files : list string := ["src/a.js"; "src/b.js"; "src/lib/c.js"].

Definition never : nat -> bool := fun _ => false.
Definition second_call : nat -> bool := Nat.eqb 1.

Definition options (v : JsValue) : Options :=
  {| output := VString "docs"; model := VUndefined; verbose := v |}.

(** Three files, the second AI call fails. *)
Definition flaky : Host nat := host (Normal three_files) second_call.

(** Three files, nothing fails. *)
Definition steady : Host nat := host (Normal three_files) never.

(** Nothing to document. *)
Definition empty : Host nat := host (Normal []) never.

(** Discovery fails. *)
Definition unreadable : Host nat := host (Throw denied) never.

End Demo.

(** A host whose AI Client always fails with an error that carries a
    stack of several frames; the rest is [Demo.steady]. *)
Module Hung.

Definition failure : JsError :=
  {| message := "socket hang up";
     stack := Some ("Error: socket hang up" ++ nl ++
                    "    at callGemini (aiEngine.js)" ++ nl ++
                    "    at analyzeCodebase (analyzer.js)" ++ nl ++
                    "    at async main (cli.js)") |}.

Definition host : Host nat :=
  {| existsSync := existsSync Demo.steady;
     glob := glob Demo.steady;
     readFileSync := readFileSync Demo.steady;
     callGemini := fun _ w => (Throw failure, S w);
     writeMarkdown := writeMarkdown Demo.steady;
     setTimeout := setTimeout Demo.steady;
     path_relative := path_relative Demo.steady;
     path_resolve := path_resolve Demo.steady;
     invalid_arg_type := invalid_arg_type Demo.steady;
     process_cwd := process_cwd Demo.steady;
     trim := trim Demo.steady;
     error_stack := error_stack Demo.steady |}.

End Hung.

(** ** Facts on traces and strings *)

Lemma append_assoc (a b c : string) : (a ++ b) ++ c = a ++ b ++ c.
Proof. induction a as [| ch a IH]; simpl; [reflexivity | now rewrite IH]. Qed.

Lemma calls_app (t1 t2 : list Event) : calls (t1 ++ t2) = (calls t1 ++ calls t2)%list.
Proof. apply filter_app. Qed.

Lemma delays_app (t1 t2 : list Event) : delays (t1 ++ t2) = (delays t1 ++ delays t2)%list.
Proof. apply filter_app. Qed.

Lemma raised_app (t1 t2 : list Event) : raised (t1 ++ t2) = (raised t1 ++ raised t2)%list.
Proof.
  induction t1 as [| e t1 IH]; simpl; [reflexivity |].
  destruct (thrown_by e); simpl; now rewrite IH.
Qed.

Lemma files_read_app (t1 t2 : list Event) :
  files_read (t1 ++ t2) = (files_read t1 ++ files_read t2)%list.
Proof.
  induction t1 as [| e t1 IH]; simpl; [reflexivity |].
  destruct (read_file e); simpl; now rewrite IH.
Qed.

Lemma raised_calls (t : list Event) : raised (calls t) = raised t.
Proof.
  induction t as [| ev t IH]; [reflexivity |].
  destruct ev; cbn [calls filter is_call raised thrown_by]; fold (calls t);
    try exact IH; cbn [raised thrown_by]; destruct r; now rewrite IH.
Qed.

Lemma files_read_calls (t : list Event) : files_read (calls t) = files_read t.
Proof.
  induction t as [| ev t IH]; [reflexivity |].
  destruct ev; cbn [calls filter is_call files_read read_file]; fold (calls t);
    now rewrite ?IH.
Qed.

Lemma ai_or_write_calls (t : list Event) :
  calls t = [] -> filter is_ai_or_write t = [].
Proof.
  induction t as [| ev t IH]; [reflexivity |].
  destruct ev; cbn [calls filter is_call is_ai_or_write]; fold (calls t);
    first [ exact IH | discriminate ].
Qed.

Lemma reports_app_l (t1 t2 : list Event) rel err :
  reports t1 rel err -> reports (t1 ++ t2) rel err.
Proof. intros [lead H]. exists lead. apply in_or_app. now left. Qed.

Lemma reports_app_r (t1 t2 : list Event) rel err :
  reports t2 rel err -> reports (t1 ++ t2) rel err.
Proof. intros [lead H]. exists lead. apply in_or_app. now right. Qed.

Lemma filter_first_files_lines (p : Event -> bool) files : forall i,
  (forall s args, p (EvConsole s args) = false) ->
  filter p (first_files_lines i files) = [].
Proof.
  induction files as [| file rest IH]; intros i Hp; cbn [first_files_lines filter].
  - reflexivity.
  - rewrite Hp. now apply IH.
Qed.

Lemma entries_files (files : list string) : map snd (entries files) = files.
Proof.
  unfold entries. generalize 0.
  induction files as [| file rest IH]; intros start; cbn [length seq combine map snd].
  - reflexivity.
  - now rewrite IH.
Qed.

(** Of the iterations over [files.entries()], all but the last are
    followed by the delay. *)
Lemma delayed_entries (files : list string) :
  length (delayed (length files) (entries files)) = length files - 1.
Proof.
  unfold entries.
  enough (H : forall start,
             length (delayed (start + length files)
                       (combine (seq start (length files)) files)) =
             length files - 1) by apply (H 0).
  induction files as [| file rest IH]; intros start; [reflexivity |].
  cbn [length seq combine]. unfold delayed. cbn [filter fst].
  replace (start + S (length rest)) with (S start + length rest) by lia.
  fold (delayed (S start + length rest) (combine (seq (S start) (length rest)) rest)).
  destruct (Z.ltb_spec (Z.of_nat start) (Z.of_nat (S start + length rest) - 1));
    cbn [length]; rewrite IH; destruct rest; cbn [length] in *; lia.
Qed.

(** In a sequential trace an AI call comes right after the read of its
    file, on the prompt built from what the read returned. *)
Lemma sequential_prompt relative out files tr prompt r :
  Sequential relative out files tr ->
  In (EvCallGemini prompt r) tr ->
  exists file content before after,
    In file files /\
    tr = (before ++ [EvReadFileSync file (Normal content); EvCallGemini prompt r]
            ++ after)%list /\
    prompt = build_prompt (relative file) content.
Proof.
  induction 1 as [| file files block rest Hblock Hrest IH]; intros Hin; [contradiction |].
  apply in_app_or in Hin as [Hin | Hin].
  - exists file.
    destruct Hblock as [err | content err | content doc r'];
      cbn [In] in Hin; intuition (try discriminate).
    + exists content, [], rest. inversion H0; subst. auto with datatypes.
    + exists content, [], ([EvWriteMarkdown file doc out r'] ++ rest)%list.
      inversion H0; subst. auto with datatypes.
  - destruct (IH Hin) as (f & content & before & after & Hf & -> & Hp).
    exists f, content, (block ++ before)%list, after.
    rewrite <- app_assoc. auto with datatypes.
Qed.

Lemma sequential_files_read relative out files tr :
  Sequential relative out files tr -> files_read tr = files.
Proof.
  induction 1 as [| file files block rest Hblock Hrest IH]; [reflexivity |].
  rewrite files_read_app, IH. now destruct Hblock.
Qed.

Lemma discovered_only_glob {A W : Type} (run : Completion A * W * list Event)
  files pattern r :
  discovered run files ->
  filter is_glob (trace_of run) = [EvGlob pattern r] ->
  r = Normal files.
Proof.
  intros [p Hin] Hglob.
  assert (H : In (EvGlob p (Normal files)) (filter is_glob (trace_of run)))
    by (apply filter_In; auto).
  rewrite Hglob in H. destruct H as [H | []]. now inversion H.
Qed.

Lemma discovered_some_glob {A W : Type} (run : Completion A * W * list Event) files :
  discovered run files -> filter is_glob (trace_of run) <> [].
Proof.
  intros [p Hin] Hglob.
  assert (H : In (EvGlob p (Normal files)) (filter is_glob (trace_of run)))
    by (apply filter_In; auto).
  now rewrite Hglob in H.
Qed.

Lemma valid_folder_test fp :
  negb (ToBoolean fp) || negb (is_string fp) = negb (valid_folder fp).
Proof.
  destruct fp; simpl; try reflexivity.
  - now destruct b.
  - now destruct (n =? 0)%Z.
  - now destruct (s =? "").
Qed.

(** Finds an event in a trace written with [::] and [++]. *)
Ltac in_trace :=
  lazymatch goal with
  | |- In _ (_ :: _) => first [ apply in_eq | apply in_cons; in_trace ]
  | |- In _ (_ ++ _)%list => apply in_or_app; first [ left; in_trace | right; in_trace ]
  end.

(** Projects a trace written with [::] and [++] on one kind of event. *)
Ltac trace_facts :=
  unfold calls, delays;
  repeat first
    [ progress cbn [app filter is_call is_delay is_glob fst snd]
    | rewrite filter_app
    | rewrite filter_first_files_lines by reflexivity
    | rewrite app_nil_r ].

(** ** The loop *)

Section LoopFacts.

Context {W : Type} (host : Host W).
Variables (folderPath : string) (options : Options) (files_length : nat).

(** Runs the [try]/[catch] of one file: a case for each step that can
    throw, in both verbosity modes. *)
Ltac run_file :=
  cbv beta iota zeta delta
    [process_file try_catch bind when ret throw emit emit_all
     console_log console_warn console_error stdout_write sleep
     fs_readFileSync call_callGemini call_writeMarkdown
     result_of trace_of fst snd];
  destruct (ToBoolean (verbose options));
  match goal with
  | |- context [readFileSync host ?f ?w] =>
      destruct (readFileSync host f w) as [[content | err] w1]
  end;
  try match goal with
  | |- context [callGemini host ?p ?w] =>
      destruct (callGemini host p w) as [[doc | err] w2]
  end;
  try match goal with
  | |- context [writeMarkdown host ?f ?d ?o ?w] =>
      destruct (writeMarkdown host f d o w) as [[outputPath | err] w3]
  end;
  cbn [app filter is_call is_delay is_glob is_ai_or_write calls delays
       files_read read_file thrown_by raised fst snd].

(** The [try]/[catch] of a file never throws: it counts the file as a
    success or as an error. *)
Lemma process_file_run index file s e w :
  exists counts' w' t,
    process_file host folderPath options files_length index file (s, e) w =
      (Normal counts', w', t) /\
    FileRun host folderPath options file s e counts' t.
Proof.
  run_file; do 3 eexists; (split; [reflexivity |]); split;
    unfold all_steps_succeed, reports;
    cbn [app filter is_call is_delay is_glob calls delays raised thrown_by];
    try first [ reflexivity | congruence | now constructor | now auto ];
    intros err' Hin; try contradiction;
    destruct Hin as [<- | []]; (split; [reflexivity |]).
  all: match goal with
       | |- context [EvConsole Error
                       [VString (?a ++ ?b ++ " " ++ "❌ Error processing " ++ _)]] =>
           exists (a ++ b ++ " "); rewrite !append_assoc
       | |- context [EvConsole Error [VString (?a ++ ?b ++ "❌ Error processing " ++ _)]] =>
           exists (a ++ b); rewrite !append_assoc
       end.
  all: repeat first [ apply in_eq | apply in_cons ].
Qed.

(** One iteration is the file and then, for every index but the last,
    the delay. *)
Lemma iteration_run index file s e w :
  exists counts' w' w'' t,
    process_file host folderPath options files_length index file (s, e) w =
      (Normal counts', w', t) /\
    FileRun host folderPath options file s e counts' t /\
    iteration host folderPath options files_length index file (s, e) w =
      (Normal counts', w'', (t ++ delay_after files_length index)%list).
Proof.
  destruct (process_file_run index file s e w) as (counts' & w' & t & Hrun & Hfacts).
  unfold iteration, bind, when, sleep, ret, delay_after.
  rewrite Hrun.
  destruct (Z.of_nat index <? Z.of_nat files_length - 1)%Z;
    do 4 eexists; (split; [reflexivity |]); (split; [exact Hfacts |]);
    cbn [app]; reflexivity.
Qed.

Lemma for_entries_cons index file rest counts w :
  for_entries host folderPath options files_length ((index, file) :: rest) counts w =
  bind (iteration host folderPath options files_length index file counts)
       (for_entries host folderPath options files_length rest) w.
Proof. reflexivity. Qed.

Lemma delays_delay_after index :
  delays (delay_after files_length index) = delay_after files_length index.
Proof. unfold delay_after. now destruct (_ <? _)%Z. Qed.

Lemma calls_delay_after index : calls (delay_after files_length index) = [].
Proof. unfold delay_after. now destruct (_ <? _)%Z. Qed.

Lemma raised_delay_after index : raised (delay_after files_length index) = [].
Proof. unfold delay_after. now destruct (_ <? _)%Z. Qed.

Lemma globs_delay_after index : filter is_glob (delay_after files_length index) = [].
Proof. unfold delay_after. now destruct (_ <? _)%Z. Qed.

Lemma delayed_cons index file rest :
  repeat (EvSetTimeout 500) (length (delayed files_length ((index, file) :: rest))) =
  (delay_after files_length index ++
   repeat (EvSetTimeout 500) (length (delayed files_length rest)))%list.
Proof.
  unfold delayed, delay_after. cbn [filter fst].
  now destruct (_ <? _)%Z.
Qed.

(** The loop never throws, whatever the steps of its files do; the
    invariant is [LoopRun]. *)
Lemma for_entries_run es : forall s e w,
  exists s' e' w' t,
    for_entries host folderPath options files_length es (s, e) w =
      (Normal (s', e'), w', t) /\
    LoopRun host folderPath options files_length es s e s' e' t.
Proof.
  induction es as [| [index file] rest IH]; intros s e w.
  - exists s, e, w, []. split; [reflexivity |].
    split; cbn; try first [ lia | reflexivity | constructor | tauto ].
  - destruct (iteration_run index file s e w)
      as (counts1 & w1 & w1' & t1 & _ & Hfile & Hiter).
    destruct counts1 as [s1 e1].
    destruct (IH s1 e1 w1') as (s' & e' & w' & t2 & Hrest & Hloop).
    exists s', e', w', ((t1 ++ delay_after files_length index) ++ t2)%list.
    split.
    { rewrite for_entries_cons. unfold bind. now rewrite Hiter, Hrest. }
    destruct Hfile as [Hc Hblock Hnodelay Hnoglob Hsucc Hfail].
    destruct Hloop as [Htot Hgrow Hseq Hdel Hglob Hall Hrep].
    assert (Hs1 : s <= s1 /\ s1 + e1 = S (s + e))
      by (destruct Hc as [Hc | Hc]; inversion Hc; lia).
    split.
    + cbn [length]. lia.
    + lia.
    + rewrite !calls_app, calls_delay_after, app_nil_r. cbn [map snd].
      now constructor.
    + rewrite !delays_app, delays_delay_after, Hnodelay, Hdel, delayed_cons.
      reflexivity.
    + rewrite !filter_app, globs_delay_after, Hnoglob, Hglob. reflexivity.
    + unfold all_steps_succeed. rewrite !raised_app, raised_delay_after, app_nil_r.
      intros Hnil. apply app_eq_nil in Hnil as [Hn1 Hn2].
      specialize (Hsucc Hn1). inversion Hsucc; subst.
      destruct (Hall Hn2) as [-> ->]. cbn [length]. split; lia.
    + intros err. rewrite !raised_app, raised_delay_after, app_nil_r.
      intros Hin. apply in_app_or in Hin as [Hin | Hin].
      * exists file. split; [now left |].
        apply reports_app_l, reports_app_l. now apply Hfail.
      * destruct (Hrep err Hin) as (f & Hf & Hr).
        exists f. split; [now right |]. now apply reports_app_r.
Qed.

End LoopFacts.

(** ** The whole run *)

Section RunFacts.

Context {W : Type} (host : Host W).

(** Every call of [analyzeCodebase] has one of the shapes of [RunShape]. *)
Lemma analyzeCodebase_shape fp opts w :
  RunShape host fp opts w (analyzeCodebase host fp opts w).
Proof.
  unfold analyzeCodebase.
  rewrite valid_folder_test.
  destruct (valid_folder fp) eqn:Hvalid; cbn [negb].
  2: { now constructor. }
  destruct (ToBoolean (output (options_or_default opts))) eqn:Hout; cbn [negb].
  2: { now constructor. }
  destruct fp as [| | | | | folder |]; try discriminate Hvalid.
  set (options := options_or_default opts) in *.
  cbv beta iota zeta delta
    [try_catch analyze_body analyze_handler bind when ret throw emit emit_all
     console_log console_warn console_error stdout_write
     fs_existsSync call_glob path_resolve_value].
  destruct (existsSync host folder w) eqn:Hexists; cbn [negb].
  2: { destruct (ToBoolean (verbose options));
       (eapply shape_missing_folder; eauto; unfold logged; trace_facts; try in_trace). }
  destruct (ToBoolean (verbose options)).
  all: destruct (glob host (folder ++ "/**/*.js") w) as [[files | err] w1] eqn:Hglob.
  all: try (eapply shape_discovery_throws; eauto; unfold logged; trace_facts;
            try in_trace; fail).
  all: destruct (length files =? 0)%nat eqn:Hlen.
  all: try (apply Nat.eqb_eq, length_zero_iff_nil in Hlen; subst files;
            eapply shape_no_files; eauto; unfold no_files_warning; trace_facts;
            try in_trace; fail).
  all: assert (Hne : files <> []) by (intros ->; discriminate Hlen).
  all: destruct (for_entries_run host folder options (length files) (entries files) 0 0 w1)
         as (s & e & w2 & t & Hloop & Hfacts).
  all: destruct Hfacts as [_ _ _ _ Hnoglob _ _].
  all: rewrite Hloop.
  all: destruct (0 <? e)%nat; destruct (output options) eqn:Houtput in |- *;
    (eapply shape_files; eauto;
     try first
       [ trace_facts; rewrite ?Hnoglob; reflexivity
       | unfold summary_line; in_trace
       | fold options; rewrite Houtput;
         first [ left; reflexivity | right; split; reflexivity ] ]).
Qed.

End RunFacts.

(** Case analysis on the shape of the run [analyzeCodebase host fp opts w]. *)
Ltac by_shape host fp opts w :=
  generalize (analyzeCodebase_shape host fp opts w);
  generalize (analyzeCodebase host fp opts w);
  let run := fresh "run" in
  let Hshape := fresh "Hshape" in
  intros run Hshape.

Section Discovery.

Context {W : Type} (host : Host W).

(** A run whose discovery found nothing stops there. *)
Lemma discovered_none fp opts w :
  discovered (analyzeCodebase host fp opts w) [] ->
  exists folder w1 t,
    fp = VString folder /\
    analyzeCodebase host fp opts w = (Normal tt, w1, t) /\
    calls t = [] /\ delays t = [] /\ In no_files_warning t.
Proof.
  by_shape host fp opts w. intros Hdisc.
  destruct Hshape
    as [ Hv | Hv Ho | folder t Hfp Hv Ho Hex Hg Hc Hd Hl
       | folder err w1 t Hfp Hv Ho Hex Hglob Hg Hc Hd Hl
       | folder w1 t Hfp Hv Ho Hex Hglob Hg Hc Hd Hwarn
       | folder fs w1 s e w2 tl r t Hfp Hv Ho Hex Hglob Hne Hloop Hg Hc Hd Hsum Hr ].
  - destruct Hdisc as [p []].
  - destruct Hdisc as [p []].
  - now apply discovered_some_glob in Hdisc.
  - now apply discovered_only_glob with (1 := Hdisc) in Hg.
  - exists folder, w1, t. auto.
  - apply discovered_only_glob with (1 := Hdisc) in Hg. inversion Hg; subst fs.
    now elim Hne.
Qed.

(** A run whose discovery found files is the loop over them, from the
    counters at zero, and then the summary. *)
Lemma discovered_files fp opts w files :
  discovered (analyzeCodebase host fp opts w) files ->
  files <> [] ->
  exists folder w1 s e w2 t_loop r t,
    fp = VString folder /\
    for_entries host folder (options_or_default opts) (length files) (entries files)
      (0, 0) w1 = (Normal (s, e), w2, t_loop) /\
    LoopRun host folder (options_or_default opts) (length files) (entries files)
      0 0 s e t_loop /\
    analyzeCodebase host fp opts w = (r, w2, t) /\
    calls t = calls t_loop /\
    delays t = delays t_loop /\
    In (summary_line s) t /\
    (r = Normal tt \/
     (is_string (output (options_or_default opts)) = false /\
      r = Throw (invalid_arg_type host (output (options_or_default opts))))).
Proof.
  by_shape host fp opts w. intros Hdisc Hfiles.
  destruct Hshape
    as [ Hv | Hv Ho | folder t Hfp Hv Ho Hex Hg Hc Hd Hl
       | folder err w1 t Hfp Hv Ho Hex Hglob Hg Hc Hd Hl
       | folder w1 t Hfp Hv Ho Hex Hglob Hg Hc Hd Hwarn
       | folder fs w1 s e w2 tl r t Hfp Hv Ho Hex Hglob Hne Hloop Hg Hc Hd Hsum Hr ].
  - destruct Hdisc as [p []].
  - destruct Hdisc as [p []].
  - now apply discovered_some_glob in Hdisc.
  - now apply discovered_only_glob with (1 := Hdisc) in Hg.
  - apply discovered_only_glob with (1 := Hdisc) in Hg. inversion Hg; subst files.
    now elim Hfiles.
  - apply discovered_only_glob with (1 := Hdisc) in Hg. inversion Hg; subst fs.
    destruct (for_entries_run host folder (options_or_default opts) (length files)
                (entries files) 0 0 w1) as (s' & e' & w' & t' & Hrun & Hfacts).
    rewrite Hloop in Hrun. inversion Hrun; subst s' e' w' t'.
    exists folder, w1, s, e, w2, tl, r, t. auto 10.
Qed.

End Discovery.

(** ** Properties of the pipeline *)

Section Claims.

Context {W : Type} (host : Host W).

(** C1.  An exception raised by a step of one file (the read, the AI call
    or the write) is caught by the handler of that file: the result of the
    [try]/[catch] is normal with [errorCount] one higher and
    [successCount] unchanged, and [console.error] reports the relative
    path and the message.  The loop over any entries, from any counters
    and in any world, ends normally after reading every file of the list
    in order.  A run that discovered files has read every one of them and
    returns normally; it throws only when [options.output] is not a
    string, and then what it throws is the [TypeError] of [path.resolve]
    on the last line of the summary, not an exception of a file. *)
Theorem per_file_exception_is_absorbed :
  (forall folderPath options len index file s e w err,
     let run := process_file host folderPath options len index file (s, e) w in
     In err (raised (trace_of run)) ->
     result_of run = Normal (s, S e) /\
     reports (trace_of run) (path_relative host folderPath file) err) /\
  (forall folderPath options len es counts w,
     let run := for_entries host folderPath options len es counts w in
     exists counts',
       result_of run = Normal counts' /\ files_read (trace_of run) = map snd es) /\
  (forall fp opts w files,
     let run := analyzeCodebase host fp opts w in
     discovered run files ->
     files_read (trace_of run) = files /\
     (result_of run = Normal tt \/
      (is_string (output (options_or_default opts)) = false /\
       result_of run = Throw (invalid_arg_type host (output (options_or_default opts)))))).
Proof.
  split; [| split].
  - intros folderPath options len index file s e w err run Hin. subst run.
    destruct (process_file_run host folderPath options len index file s e w)
      as (counts' & w' & t & Hrun & Hfacts).
    rewrite Hrun in *. cbn [result_of trace_of fst snd] in *.
    destruct Hfacts as [_ _ _ _ _ Hfail].
    destruct (Hfail err Hin) as [-> Hrep]. auto.
  - intros folderPath options len es [s e] w run. subst run.
    destruct (for_entries_run host folderPath options len es s e w)
      as (s' & e' & w' & t & Hrun & Hfacts).
    rewrite Hrun. cbn [result_of trace_of fst snd].
    exists (s', e'). split; [reflexivity |].
    destruct Hfacts as [_ _ Hseq _ _ _ _].
    rewrite <- files_read_calls.
    exact (sequential_files_read _ _ _ _ Hseq).
  - intros fp opts w files run Hdisc. subst run.
    assert (Hcases : files = [] \/ files <> [])
      by (destruct files; [left | right]; congruence).
    destruct Hcases as [-> | Hne].
    + destruct (discovered_none host fp opts w Hdisc) as (folder & w1 & t & _ & -> & Hc & _).
      cbn [result_of trace_of fst snd].
      rewrite <- files_read_calls, Hc. auto.
    + destruct (discovered_files host fp opts w files Hdisc Hne)
        as (folder & w1 & s & e & w2 & tl & r & t & _ & _ & Hfacts & -> & Hc & _ & _ & Hr).
      cbn [result_of trace_of fst snd]. split; [| exact Hr].
      destruct Hfacts as [_ _ Hseq _ _ _ _].
      rewrite <- files_read_calls, Hc.
      rewrite entries_files in Hseq.
      exact (sequential_files_read _ _ _ _ Hseq).
Qed.

(** C2.  The [try]/[catch] of a file adds one to exactly one of
    [successCount] and [errorCount].  After the loop over the [N]
    discovered files, started as the code starts it at (0, 0), the two
    counters add up to [N], and when no step of any file threw they are
    [N] and [0].  In a run that discovered [N >= 1] files these are the
    counters the summary prints. *)
Theorem exactly_one_counter_per_file :
  (forall folderPath options len index file s e w,
     let run := process_file host folderPath options len index file (s, e) w in
     result_of run = Normal (S s, e) \/ result_of run = Normal (s, S e)) /\
  (forall folderPath options files w,
     let run :=
       for_entries host folderPath options (length files) (entries files) (0, 0) w in
     exists successCount errorCount,
       result_of run = Normal (successCount, errorCount) /\
       successCount + errorCount = length files /\
       (all_steps_succeed (trace_of run) ->
        successCount = length files /\ errorCount = 0)) /\
  (forall fp opts w files,
     let run := analyzeCodebase host fp opts w in
     discovered run files ->
     files <> [] ->
     exists successCount errorCount,
       successCount + errorCount = length files /\
       In (summary_line successCount) (trace_of run) /\
       (all_steps_succeed (trace_of run) ->
        successCount = length files /\ errorCount = 0)).
Proof.
  assert (Hlen : forall files, length (entries files) = length files).
  { intros files. rewrite <- (entries_files files) at 2. now rewrite length_map. }
  split; [| split].
  - intros folderPath options len index file s e w run. subst run.
    destruct (process_file_run host folderPath options len index file s e w)
      as (counts' & w' & t & -> & [Hc _ _ _ _ _]).
    cbn [result_of fst]. destruct Hc as [-> | ->]; auto.
  - intros folderPath options files w run. subst run.
    destruct (for_entries_run host folderPath options (length files) (entries files) 0 0 w)
      as (s & e & w' & t & -> & [Htot _ _ _ _ Hall _]).
    cbn [result_of trace_of fst snd]. rewrite Hlen in *.
    exists s, e. repeat split; try lia; now apply Hall.
  - intros fp opts w files run Hdisc Hne. subst run.
    destruct (discovered_files host fp opts w files Hdisc Hne)
      as (folder & w1 & s & e & w2 & tl & r & t & _ & _ & Hfacts & -> & Hc & _ & Hsum & _).
    destruct Hfacts as [Htot _ _ _ _ Hall _].
    cbn [trace_of snd]. rewrite Hlen in *.
    exists s, e. split; [lia |]. split; [exact Hsum |].
    unfold all_steps_succeed in *.
    rewrite <- (raised_calls t), Hc, raised_calls. exact Hall.
Qed.

(** C3.  When discovery returns no file, [analyzeCodebase] warns that no
    JavaScript file was found and returns normally; nothing was read, and
    neither [callGemini] nor [writeMarkdown] was called. *)
Theorem no_files_no_work fp opts w :
  let run := analyzeCodebase host fp opts w in
  discovered run [] ->
  result_of run = Normal tt /\
  In no_files_warning (trace_of run) /\
  filter is_ai_or_write (trace_of run) = [] /\
  calls (trace_of run) = [].
Proof.
  intros run Hdisc. subst run.
  destruct (discovered_none host fp opts w Hdisc)
    as (folder & w1 & t & _ & -> & Hc & _ & Hwarn).
  cbn [result_of trace_of fst snd].
  auto using ai_or_write_calls.
Qed.

(** C4.  When [folderPath] is not a non-empty string, or [options.output]
    is falsy (unset, in particular), [analyzeCodebase] throws at once:
    the world is untouched and the trace is empty, so nothing was
    discovered, read, sent or written and no summary was printed.  The
    message is that of the first check that fails. *)
Theorem invalid_arguments_throw_first fp opts w :
  valid_folder fp = false \/ ToBoolean (output (options_or_default opts)) = false ->
  exists err,
    analyzeCodebase host fp opts w = (Throw err, w, []) /\
    message err =
      if valid_folder fp then "Output directory must be specified"
      else "Invalid folder path".
Proof.
  intros Hbad. unfold analyzeCodebase. rewrite valid_folder_test.
  destruct (valid_folder fp) eqn:Hvalid; cbn [negb].
  - destruct Hbad as [Hbad | Hbad]; [discriminate |].
    rewrite Hbad. cbn [negb]. eexists. split; reflexivity.
  - eexists. split; reflexivity.
Qed.

(** C5.  When the folder does not exist, [analyzeCodebase] throws, and
    the run made no discovery, read no file and called neither the AI
    Client nor the Markdown Writer. *)
Theorem missing_folder_fails_fast folder opts w :
  let run := analyzeCodebase host (VString folder) opts w in
  existsSync host folder w = false ->
  exists err,
    result_of run = Throw err /\
    filter is_ai_or_write (trace_of run) = [] /\
    calls (trace_of run) = [] /\
    filter is_glob (trace_of run) = [].
Proof.
  intros run. subst run. by_shape host (VString folder) opts w. intros Hmissing.
  destruct Hshape
    as [ Hv | Hv Ho | folder' t Hfp Hv Ho Hex Hg Hc Hd Hl
       | folder' err w1 t Hfp Hv Ho Hex Hglob Hg Hc Hd Hl
       | folder' w1 t Hfp Hv Ho Hex Hglob Hg Hc Hd Hwarn
       | folder' fs w1 s e w2 tl r t Hfp Hv Ho Hex Hglob Hne Hloop Hg Hc Hd Hsum Hr ];
    cbn [result_of trace_of fst snd];
    try (inversion Hfp; subst folder'; congruence);
    eexists; auto using ai_or_write_calls.
Qed.

(** C6, as amended.  The two validation errors of lines 16-22 (invalid
    folder path, missing output option) are thrown to the caller at once
    and nothing is logged: they are raised before the [try] block.  The
    fatal errors raised inside it are logged by [console.error] under the
    heading of line 126 and then thrown again unaltered: the error of the
    missing folder, and whatever error discovery threw. *)
Theorem fatal_errors_are_rethrown fp opts w :
  let run := analyzeCodebase host fp opts w in
  let options := options_or_default opts in
  (valid_folder fp = false \/ ToBoolean (output options) = false ->
   exists err, run = (Throw err, w, [])) /\
  (forall folder,
     fp = VString folder ->
     valid_folder fp = true ->
     ToBoolean (output options) = true ->
     existsSync host folder w = false ->
     let err := new_Error host ("Folder does not exist: " ++ folder) in
     result_of run = Throw err /\ logged (trace_of run) err) /\
  (forall folder err w1,
     fp = VString folder ->
     valid_folder fp = true ->
     ToBoolean (output options) = true ->
     existsSync host folder w = true ->
     glob host (folder ++ "/**/*.js") w = (Throw err, w1) ->
     result_of run = Throw err /\ logged (trace_of run) err).
Proof.
  intros run options. subst run options.
  by_shape host fp opts w.
  split; [| split].
  - intros [Hbad | Hbad];
      destruct Hshape
        as [ Hv | Hv Ho | folder t Hfp Hv Ho Hex Hg Hc Hd Hl
           | folder err w1 t Hfp Hv Ho Hex Hglob Hg Hc Hd Hl
           | folder w1 t Hfp Hv Ho Hex Hglob Hg Hc Hd Hwarn
           | folder fs w1 s e w2 tl r t Hfp Hv Ho Hex Hglob Hne Hloop Hg Hc Hd Hsum Hr ];
      try congruence; eexists; reflexivity.
  - intros folder0 Hfp0 Hv0 Ho0 Hex0 err0. subst err0.
    destruct Hshape
      as [ Hv | Hv Ho | folder t Hfp Hv Ho Hex Hg Hc Hd Hl
         | folder err w1 t Hfp Hv Ho Hex Hglob Hg Hc Hd Hl
         | folder w1 t Hfp Hv Ho Hex Hglob Hg Hc Hd Hwarn
         | folder fs w1 s e w2 tl r t Hfp Hv Ho Hex Hglob Hne Hloop Hg Hc Hd Hsum Hr ];
      try congruence;
      rewrite Hfp0 in Hfp; inversion Hfp; subst folder; try congruence.
    cbn [result_of trace_of fst snd]. auto.
  - intros folder0 err0 w0 Hfp0 Hv0 Ho0 Hex0 Hglob0.
    destruct Hshape
      as [ Hv | Hv Ho | folder t Hfp Hv Ho Hex Hg Hc Hd Hl
         | folder err w1 t Hfp Hv Ho Hex Hglob Hg Hc Hd Hl
         | folder w1 t Hfp Hv Ho Hex Hglob Hg Hc Hd Hwarn
         | folder fs w1 s e w2 tl r t Hfp Hv Ho Hex Hglob Hne Hloop Hg Hc Hd Hsum Hr ];
      try congruence;
      rewrite Hfp0 in Hfp; inversion Hfp; subst folder; try congruence.
    rewrite Hglob0 in Hglob. inversion Hglob; subst.
    cbn [result_of trace_of fst snd]. auto.
Qed.

(** C7.  An iteration is the [try]/[catch] of its file, which takes no
    delay, and then one [setTimeout] of 500 ms exactly when the index is
    below [files.length - 1], whatever happened to the file.  So a run
    that discovered [N >= 1] files takes [N - 1] delays, all of 500 ms. *)
Theorem delay_after_every_file_but_last :
  (forall folderPath options len index file counts w,
     trace_of (iteration host folderPath options len index file counts w) =
       (trace_of (process_file host folderPath options len index file counts w) ++
        if (Z.of_nat index <? Z.of_nat len - 1)%Z then [EvSetTimeout 500] else [])%list /\
     delays (trace_of (process_file host folderPath options len index file counts w)) = []) /\
  (forall fp opts w files,
     let run := analyzeCodebase host fp opts w in
     discovered run files ->
     files <> [] ->
     delays (trace_of run) = repeat (EvSetTimeout 500) (length files - 1)).
Proof.
  split.
  - intros folderPath options len index file [s e] w.
    destruct (iteration_run host folderPath options len index file s e w)
      as (counts' & w' & w'' & t & -> & [_ _ Hnodelay _ _ _] & ->).
    cbn [trace_of snd]. auto.
  - intros fp opts w files run Hdisc Hne. subst run.
    destruct (discovered_files host fp opts w files Hdisc Hne)
      as (folder & w1 & s & e & w2 & tl & r & t & _ & _ & Hfacts & -> & _ & Hd & _).
    destruct Hfacts as [_ _ _ Hdel _ _ _].
    cbn [trace_of snd]. now rewrite Hd, Hdel, delayed_entries.
Qed.

(** C8.  Every prompt sent to the AI Client is the template literal of
    lines 80-90 with its two holes filled.  It is, character for
    character: the fixed instructions, which ask for comprehensive
    documentation of the JavaScript file with its purpose and
    functionality, its key functions and classes, its inputs and
    outputs, its dependencies and any important notes or warnings, and
    end with the label of the file; then the path of the file relative to
    the input folder; an empty line; and the content of the file exactly
    as the read just before the call returned it. *)
Theorem prompt_is_template_path_content fp opts w prompt r :
  let run := analyzeCodebase host fp opts w in
  let lf := String "010"%char EmptyString in
  In (EvCallGemini prompt r) (trace_of run) ->
  exists folder files file content before after,
    fp = VString folder /\
    discovered run files /\
    In file files /\
    calls (trace_of run) =
      (before ++ [EvReadFileSync file (Normal content); EvCallGemini prompt r]
         ++ after)%list /\
    prompt =
      "Generate comprehensive documentation for the following JavaScript file." ++ lf ++
      "Include:" ++ lf ++
      "1. File purpose and functionality" ++ lf ++
      "2. Key functions/classes with descriptions" ++ lf ++
      "3. Inputs/outputs" ++ lf ++
      "4. Dependencies" ++ lf ++
      "5. Any important notes or warnings" ++ lf ++
      lf ++
      "File: " ++ path_relative host folder file ++ lf ++
      lf ++
      content.
Proof.
  intros run lf. subst run lf. unfold discovered.
  by_shape host fp opts w. intros Hin.
  assert (Hcall : In (EvCallGemini prompt r) (calls (trace_of run)))
    by (apply filter_In; auto).
  destruct Hshape
    as [ Hv | Hv Ho | folder t Hfp Hv Ho Hex Hg Hc Hd Hl
       | folder err w1 t Hfp Hv Ho Hex Hglob Hg Hc Hd Hl
       | folder w1 t Hfp Hv Ho Hex Hglob Hg Hc Hd Hwarn
       | folder fs w1 s e w2 tl r' t Hfp Hv Ho Hex Hglob Hne Hloop Hg Hc Hd Hsum Hr ];
    cbn [trace_of snd] in *; try (rewrite Hc in Hcall; contradiction);
    try contradiction.
  destruct (for_entries_run host folder (options_or_default opts) (length fs)
              (entries fs) 0 0 w1) as (s' & e' & w' & t' & Hrun & Hfacts).
  rewrite Hloop in Hrun. inversion Hrun; subst s' e' w' t'.
  destruct Hfacts as [_ _ Hseq _ _ _ _]. rewrite entries_files in Hseq.
  rewrite Hc in Hcall |- *.
  destruct (sequential_prompt _ _ _ _ _ _ Hseq Hcall)
    as (file & content & before & after & Hfile & Htr & Hprompt).
  exists folder, fs, file, content, before, after.
  split; [exact Hfp |]. split.
  { exists (folder ++ "/**/*.js").
    assert (H : In (EvGlob (folder ++ "/**/*.js") (Normal fs)) (filter is_glob t))
      by (rewrite Hg; now left).
    now apply filter_In in H. }
  split; [exact Hfile |]. split; [exact Htr |].
  rewrite Hprompt. reflexivity.
Qed.

(** C9.  The steps of a run are sequential in discovery order: projected
    on the reads, AI calls and writes, the trace is the block of the first
    discovered file, then the block of the second, and so on; the block of
    a file is its read, then its AI call, then its write, each with its
    outcome, cut at the first step that throws.  No step of a file lies
    between two steps of another. *)
Theorem files_are_processed_in_sequence fp opts w files :
  let run := analyzeCodebase host fp opts w in
  discovered run files ->
  exists folder,
    fp = VString folder /\
    Sequential (path_relative host folder) (output (options_or_default opts)) files
      (calls (trace_of run)).
Proof.
  intros run Hdisc. subst run.
  assert (Hcases : files = [] \/ files <> [])
    by (destruct files; [left | right]; congruence).
  destruct Hcases as [-> | Hne].
  - destruct (discovered_none host fp opts w Hdisc)
      as (folder & w1 & t & Hfp & -> & Hc & _).
    exists folder. split; [exact Hfp |].
    cbn [trace_of snd]. rewrite Hc. constructor.
  - destruct (discovered_files host fp opts w files Hdisc Hne)
      as (folder & w1 & s & e & w2 & tl & r & t & Hfp & _ & Hfacts & -> & Hc & _).
    destruct Hfacts as [_ _ Hseq _ _ _ _]. rewrite entries_files in Hseq.
    exists folder. split; [exact Hfp |].
    cbn [trace_of snd]. now rewrite Hc.
Qed.

(** C10.  [options.model] is never read: two calls whose options agree
    on [output] and [verbose] give the same completion, the same next
    world and the same trace. *)
Theorem model_option_is_ignored fp o1 o2 w :
  output o1 = output o2 ->
  verbose o1 = verbose o2 ->
  analyzeCodebase host fp (Some o1) w = analyzeCodebase host fp (Some o2) w.
Proof.
  destruct o1 as [out1 model1 verbose1], o2 as [out2 model2 verbose2].
  cbn [output verbose]. intros -> ->. reflexivity.
Qed.

End Claims.

(** ** Runs on the demo host *)

(** The AI Client fails on the second of three files: two files are
    documented, one is counted as an error and reported with its relative
    path, and the run ends normally after two delays. *)
Example flaky_run :
  let run := analyzeCodebase Demo.flaky (VString "src") (Some (Demo.options VUndefined)) 0 in
  result_of run = Normal tt /\
  files_read (trace_of run) = Demo.three_files /\
  delays (trace_of run) = [EvSetTimeout 500; EvSetTimeout 500] /\
  raised (trace_of run) = [Demo.quota] /\
  In (summary_line 2) (trace_of run) /\
  In (EvConsole Warn [VString "⚠️  1 files had errors (see above for details)"])
     (trace_of run) /\
  In (EvConsole Error
        [VString (nl ++ "[2/3] ❌ Error processing b.js: quota exceeded")])
     (trace_of run).
Proof. vm_compute. repeat split; tauto. Qed.

(** Nothing fails: three files documented, no warning about errors. *)
Example steady_run :
  let run := analyzeCodebase Demo.steady (VString "src") (Some (Demo.options (VBool true))) 0 in
  result_of run = Normal tt /\
  raised (trace_of run) = [] /\
  In (summary_line 3) (trace_of run) /\
  In (EvConsole Log [VString "  ...and -2 more"]) (trace_of run) /\
  In (EvConsole Log [VString "📂 Output directory: /work/docs"]) (trace_of run).
Proof. vm_compute. repeat split; tauto. Qed.

(** An output root that is truthy but not a string: every write fails,
    and the summary ends in the [TypeError] of [path.resolve], which the
    outer handler logs and throws. *)
Example output_not_a_string :
  let options := {| output := VBool true; model := VUndefined; verbose := VUndefined |} in
  let run := analyzeCodebase Demo.steady (VString "src") (Some options) 0 in
  result_of run = Throw (invalid_arg_type Demo.steady (VBool true)) /\
  In (summary_line 0) (trace_of run) /\
  logged (trace_of run) (invalid_arg_type Demo.steady (VBool true)).
Proof. vm_compute. repeat split; tauto. Qed.

(** ** Witnesses *)

Lemma per_file_exception_is_absorbed_witness :
  let run :=
    process_file Demo.flaky "src" (Demo.options VUndefined) 3 1 "src/b.js" (1, 0) 1 in
  In Demo.quota (raised (trace_of run)) /\
  result_of run = Normal (1, 1) /\
  reports (trace_of run) "b.js" Demo.quota.
Proof.
  intros run.
  assert (H : In Demo.quota (raised (trace_of run))) by (vm_compute; left; reflexivity).
  split; [exact H |].
  exact (proj1 (per_file_exception_is_absorbed Demo.flaky)
           "src" (Demo.options VUndefined) 3 1 "src/b.js" 1 0 1 Demo.quota H).
Defined.

Lemma exactly_one_counter_per_file_witness :
  let run := analyzeCodebase Demo.flaky (VString "src") (Some (Demo.options VUndefined)) 0 in
  discovered run Demo.three_files /\
  Demo.three_files <> [] /\
  exists successCount errorCount,
    successCount + errorCount = 3 /\
    In (summary_line successCount) (trace_of run) /\
    (all_steps_succeed (trace_of run) -> successCount = 3 /\ errorCount = 0).
Proof.
  intros run.
  assert (Hd : discovered run Demo.three_files)
    by (exists "src/**/*.js"; vm_compute; tauto).
  assert (Hne : Demo.three_files <> []) by discriminate.
  split; [exact Hd |]. split; [exact Hne |].
  exact (proj2 (proj2 (exactly_one_counter_per_file Demo.flaky))
           (VString "src") (Some (Demo.options VUndefined)) 0 Demo.three_files Hd Hne).
Defined.

Lemma no_files_no_work_witness :
  let run := analyzeCodebase Demo.empty (VString "src") (Some (Demo.options VUndefined)) 0 in
  discovered run [] /\
  result_of run = Normal tt /\
  In no_files_warning (trace_of run) /\
  filter is_ai_or_write (trace_of run) = [] /\
  calls (trace_of run) = [].
Proof.
  intros run.
  assert (Hd : discovered run []) by (exists "src/**/*.js"; vm_compute; tauto).
  split; [exact Hd |].
  exact (no_files_no_work Demo.empty (VString "src") (Some (Demo.options VUndefined)) 0 Hd).
Defined.

Lemma invalid_arguments_throw_first_witness :
  (valid_folder (VNumber 3) = false \/
   ToBoolean (output (options_or_default None)) = false) /\
  exists err,
    analyzeCodebase Demo.steady (VNumber 3) None 0 = (Throw err, 0, []) /\
    message err =
      if valid_folder (VNumber 3) then "Output directory must be specified"
      else "Invalid folder path".
Proof.
  assert (H : valid_folder (VNumber 3) = false \/
              ToBoolean (output (options_or_default None)) = false)
    by (left; reflexivity).
  split; [exact H |].
  exact (invalid_arguments_throw_first Demo.steady (VNumber 3) None 0 H).
Defined.

Lemma missing_folder_fails_fast_witness :
  let run := analyzeCodebase Demo.steady (VString "lib") (Some (Demo.options VUndefined)) 0 in
  existsSync Demo.steady "lib" 0 = false /\
  exists err,
    result_of run = Throw err /\
    filter is_ai_or_write (trace_of run) = [] /\
    calls (trace_of run) = [] /\
    filter is_glob (trace_of run) = [].
Proof.
  intros run.
  assert (H : existsSync Demo.steady "lib" 0 = false) by reflexivity.
  split; [exact H |].
  exact (missing_folder_fails_fast Demo.steady "lib" (Some (Demo.options VUndefined)) 0 H).
Defined.

(** The run C6 fails on: the folder path is the empty string, the check
    of line 16 throws, and nothing at all is logged. *)
Lemma validation_error_is_not_logged :
  result_of (analyzeCodebase Demo.steady (VString "") (Some (Demo.options VUndefined)) 0) =
    Throw (new_Error Demo.steady "Invalid folder path") /\
  trace_of (analyzeCodebase Demo.steady (VString "") (Some (Demo.options VUndefined)) 0) = [] /\
  ~ logged
      (trace_of (analyzeCodebase Demo.steady (VString "") (Some (Demo.options VUndefined)) 0))
      (new_Error Demo.steady "Invalid folder path").
Proof. vm_compute. repeat split. tauto. Qed.

Lemma fatal_errors_are_rethrown_witness :
  let run :=
    analyzeCodebase Demo.unreadable (VString "src") (Some (Demo.options VUndefined)) 0 in
  (valid_folder (VString "src") = true /\
   ToBoolean (output (Demo.options VUndefined)) = true /\
   existsSync Demo.unreadable "src" 0 = true /\
   glob Demo.unreadable "src/**/*.js" 0 = (Throw Demo.denied, 0)) /\
  result_of run = Throw Demo.denied /\
  logged (trace_of run) Demo.denied.
Proof.
  intros run.
  assert (Hv : valid_folder (VString "src") = true) by reflexivity.
  assert (Ho : ToBoolean (output (options_or_default (Some (Demo.options VUndefined)))) = true)
    by reflexivity.
  assert (He : existsSync Demo.unreadable "src" 0 = true) by reflexivity.
  assert (Hg : glob Demo.unreadable ("src" ++ "/**/*.js") 0 = (Throw Demo.denied, 0))
    by reflexivity.
  split; [repeat split; reflexivity |].
  exact (proj2 (proj2 (fatal_errors_are_rethrown Demo.unreadable (VString "src")
                         (Some (Demo.options VUndefined)) 0))
           "src" Demo.denied 0 eq_refl Hv Ho He Hg).
Defined.

Lemma delay_after_every_file_but_last_witness :
  let run := analyzeCodebase Demo.flaky (VString "src") (Some (Demo.options VUndefined)) 0 in
  discovered run Demo.three_files /\
  Demo.three_files <> [] /\
  delays (trace_of run) = [EvSetTimeout 500; EvSetTimeout 500].
Proof.
  intros run.
  assert (Hd : discovered run Demo.three_files)
    by (exists "src/**/*.js"; vm_compute; tauto).
  assert (Hne : Demo.three_files <> []) by discriminate.
  split; [exact Hd |]. split; [exact Hne |].
  exact (proj2 (delay_after_every_file_but_last Demo.flaky)
           (VString "src") (Some (Demo.options VUndefined)) 0 Demo.three_files Hd Hne).
Defined.

Lemma prompt_is_template_path_content_witness :
  let run := analyzeCodebase Demo.steady (VString "src") (Some (Demo.options VUndefined)) 0 in
  let lf := String "010"%char EmptyString in
  let prompt :=
    "Generate comprehensive documentation for the following JavaScript file." ++ lf ++
    "Include:" ++ lf ++
    "1. File purpose and functionality" ++ lf ++
    "2. Key functions/classes with descriptions" ++ lf ++
    "3. Inputs/outputs" ++ lf ++
    "4. Dependencies" ++ lf ++
    "5. Any important notes or warnings" ++ lf ++
    lf ++
    "File: lib/c.js" ++ lf ++
    lf ++
    "// src/lib/c.js" in
  In (EvCallGemini prompt (Normal "DOC:259")) (trace_of run) /\
  exists folder files file content before after,
    VString "src" = VString folder /\
    discovered run files /\
    In file files /\
    calls (trace_of run) =
      (before ++ [EvReadFileSync file (Normal content);
                  EvCallGemini prompt (Normal "DOC:259")] ++ after)%list /\
    prompt =
      "Generate comprehensive documentation for the following JavaScript file." ++ lf ++
      "Include:" ++ lf ++
      "1. File purpose and functionality" ++ lf ++
      "2. Key functions/classes with descriptions" ++ lf ++
      "3. Inputs/outputs" ++ lf ++
      "4. Dependencies" ++ lf ++
      "5. Any important notes or warnings" ++ lf ++
      lf ++
      "File: " ++ path_relative Demo.steady folder file ++ lf ++
      lf ++
      content.
Proof.
  intros run lf prompt.
  assert (H : In (EvCallGemini prompt (Normal "DOC:259")) (trace_of run))
    by (vm_compute; tauto).
  split; [exact H |].
  exact (prompt_is_template_path_content Demo.steady (VString "src")
           (Some (Demo.options VUndefined)) 0 prompt (Normal "DOC:259") H).
Defined.

Lemma files_are_processed_in_sequence_witness :
  let run := analyzeCodebase Demo.flaky (VString "src") (Some (Demo.options (VBool true))) 0 in
  discovered run Demo.three_files /\
  exists folder,
    VString "src" = VString folder /\
    Sequential (path_relative Demo.flaky folder) (VString "docs") Demo.three_files
      (calls (trace_of run)).
Proof.
  intros run.
  assert (Hd : discovered run Demo.three_files)
    by (exists "src/**/*.js"; vm_compute; tauto).
  split; [exact Hd |].
  exact (files_are_processed_in_sequence Demo.flaky (VString "src")
           (Some (Demo.options (VBool true))) 0 Demo.three_files Hd).
Defined.

Lemma model_option_is_ignored_witness :
  let gemini := {| output := VString "docs"; model := VString "gemini"; verbose := VNull |} in
  let other := {| output := VString "docs"; model := VNumber 7; verbose := VNull |} in
  (output gemini = output other /\ verbose gemini = verbose other) /\
  analyzeCodebase Demo.flaky (VString "src") (Some gemini) 0 =
  analyzeCodebase Demo.flaky (VString "src") (Some other) 0.
Proof.
  intros gemini other.
  split; [split; reflexivity |].
  exact (model_option_is_ignored Demo.flaky (VString "src") gemini other 0
           eq_refl eq_refl).
Defined.

(** ** Further facts on the run *)

Section MoreRunFacts.

Context {W : Type} (host : Host W).

(** The trace of a run whose discovery found files: what comes before
    the loop, the loop, and the summary. *)
Lemma analyzeCodebase_files folder opts w files w1 s e w2 t_loop :
  valid_folder (VString folder) = true ->
  ToBoolean (output (options_or_default opts)) = true ->
  existsSync host folder w = true ->
  glob host (folder ++ "/**/*.js") w = (Normal files, w1) ->
  files <> [] ->
  for_entries host folder (options_or_default opts) (length files) (entries files)
    (0, 0) w1 = (Normal (s, e), w2, t_loop) ->
  analyzeCodebase host (VString folder) opts w =
    (summary_result host (options_or_default opts), w2,
     (intro_events (options_or_default opts) folder files ++ t_loop ++
      summary_events host (options_or_default opts) s e)%list).
Proof.
  intros Hvalid Hout Hexists Hglob Hne Hloop.
  unfold analyzeCodebase. rewrite valid_folder_test, Hvalid, Hout. cbn [negb].
  set (options := options_or_default opts) in *.
  assert (Hlen : (length files =? 0)%nat = false).
  { apply Nat.eqb_neq. intros H. apply length_zero_iff_nil in H. contradiction. }
  unfold summary_result, intro_events, summary_events.
  cbv beta iota zeta delta
    [try_catch analyze_body analyze_handler bind when ret throw emit emit_all
     console_log console_warn console_error stdout_write
     fs_existsSync call_glob path_resolve_value].
  rewrite Hexists. cbn [negb].
  destruct (ToBoolean (verbose options)); rewrite Hglob, Hlen, Hloop;
    destruct (0 <? e)%nat; destruct (output options);
    unfold summary_line, error_warning;
    repeat (rewrite <- app_assoc; cbn [app]); reflexivity.
Qed.

(** What discovery returned fixes how the run got there. *)
Lemma discovered_run fp opts w files :
  discovered (analyzeCodebase host fp opts w) files ->
  exists folder w1,
    fp = VString folder /\
    valid_folder fp = true /\
    ToBoolean (output (options_or_default opts)) = true /\
    existsSync host folder w = true /\
    glob host (folder ++ "/**/*.js") w = (Normal files, w1).
Proof.
  by_shape host fp opts w. intros Hdisc.
  destruct Hshape
    as [ Hv | Hv Ho | folder t Hfp Hv Ho Hex Hg Hc Hd Hl
       | folder err w1 t Hfp Hv Ho Hex Hglob Hg Hc Hd Hl
       | folder w1 t Hfp Hv Ho Hex Hglob Hg Hc Hd Hwarn
       | folder fs w1 s e w2 tl r t Hfp Hv Ho Hex Hglob Hne Hloop Hg Hc Hd Hsum Hr ].
  - destruct Hdisc as [p []].
  - destruct Hdisc as [p []].
  - now apply discovered_some_glob in Hdisc.
  - now apply discovered_only_glob with (1 := Hdisc) in Hg.
  - apply discovered_only_glob with (1 := Hdisc) in Hg. inversion Hg; subst files.
    exists folder, w1. auto.
  - apply discovered_only_glob with (1 := Hdisc) in Hg. inversion Hg; subst fs.
    exists folder, w1. auto.
Qed.

(** A run whose discovery found files, with its trace in full. *)
Lemma discovered_files_trace fp opts w files :
  discovered (analyzeCodebase host fp opts w) files ->
  files <> [] ->
  exists folder w1 s e w2 t_loop,
    fp = VString folder /\
    glob host (folder ++ "/**/*.js") w = (Normal files, w1) /\
    for_entries host folder (options_or_default opts) (length files) (entries files)
      (0, 0) w1 = (Normal (s, e), w2, t_loop) /\
    analyzeCodebase host fp opts w =
      (summary_result host (options_or_default opts), w2,
       (intro_events (options_or_default opts) folder files ++ t_loop ++
        summary_events host (options_or_default opts) s e)%list).
Proof.
  intros Hdisc Hne.
  destruct (discovered_run fp opts w files Hdisc)
    as (folder & w1 & -> & Hv & Ho & Hex & Hglob).
  destruct (for_entries_run host folder (options_or_default opts) (length files)
              (entries files) 0 0 w1) as (s & e & w2 & t & Hloop & _).
  exists folder, w1, s, e, w2, t.
  repeat split; auto.
  now apply analyzeCodebase_files with (w1 := w1).
Qed.

End MoreRunFacts.

(** ** Further facts on the loop *)

Lemma count_app p (t1 t2 : list Event) : count p (t1 ++ t2) = count p t1 + count p t2.
Proof. unfold count. now rewrite filter_app, length_app. Qed.


Lemma effects_app (t1 t2 : list Event) : effects (t1 ++ t2) = (effects t1 ++ effects t2)%list.
Proof. apply filter_app. Qed.

(** A projection on per-file steps sees only the per-file steps. *)
Lemma filter_calls (p : Event -> bool) (t : list Event) :
  (forall e, p e = true -> is_call e = true) ->
  filter p (calls t) = filter p t.
Proof.
  intros Hp. induction t as [| ev t IH]; [reflexivity |].
  unfold calls in *. cbn [filter].
  destruct (is_call ev) eqn:Hcall; cbn [filter]; rewrite IH; [reflexivity |].
  destruct (p ev) eqn:Hpe; [| reflexivity].
  apply Hp in Hpe. congruence.
Qed.

Lemma count_calls (p : Event -> bool) (t : list Event) :
  (forall e, p e = true -> is_call e = true) ->
  count p (calls t) = count p t.
Proof. intros Hp. unfold count. now rewrite filter_calls. Qed.

(** Runs the [try]/[catch] of one file, a case for each step that can
    throw. *)
Ltac step_file host options :=
  cbv beta iota zeta delta
    [process_file try_catch bind when ret throw emit emit_all
     console_log console_warn console_error stdout_write sleep
     fs_readFileSync call_callGemini call_writeMarkdown
     result_of trace_of world_of fst snd];
  destruct (ToBoolean (verbose options));
  match goal with
  | |- context [readFileSync host ?f ?w] =>
      destruct (readFileSync host f w) as [[content | err] w1]
  end;
  try match goal with
  | |- context [callGemini host ?p ?w] =>
      destruct (callGemini host p w) as [[doc | err] w2]
  end;
  try match goal with
  | |- context [writeMarkdown host ?f ?d ?o ?w] =>
      destruct (writeMarkdown host f d o w) as [[outputPath | err] w3]
  end.

Section MoreLoopFacts.

Context {W : Type} (host : Host W).
Variables (folderPath : string) (options : Options) (files_length : nat).

(** One file: the read is made; the AI is called when the read returned;
    the write is made when the AI returned; the file counts as a success
    when the write returned and as an error when a step threw. *)
Lemma process_file_tally index file s e w :
  exists w' t,
    process_file host folderPath options files_length index file (s, e) w =
      (Normal (s + count is_write_ok t, e + length (raised t)), w', t) /\
    count is_read t = 1 /\
    count is_ai t = count is_read_ok t /\
    count is_write t = count is_ai_ok t /\
    filter is_warn t = [].
Proof.
  step_file host options;
    match goal with
    | |- exists w' t, (_, ?w0, ?tr) = _ /\ _ => exists w0, tr
    end;
    cbn [app count filter length raised thrown_by
         is_read is_read_ok is_ai is_ai_ok is_write is_write_ok is_warn];
    rewrite ?Nat.add_0_r, ?Nat.add_1_r; repeat split; reflexivity.
Qed.

Lemma count_delay_after p index :
  (forall ms, p (EvSetTimeout ms) = false) ->
  count p (delay_after files_length index) = 0.
Proof.
  intros Hp. unfold delay_after, count.
  destruct (_ <? _)%Z; cbn [filter]; now rewrite ?Hp.
Qed.

(** The loop: every file is read, and the counters it leaves are the
    number of writes that returned and the number of exceptions. *)
Lemma for_entries_tally es : forall s e w,
  exists w' t,
    for_entries host folderPath options files_length es (s, e) w =
      (Normal (s + count is_write_ok t, e + length (raised t)), w', t) /\
    count is_read t = length es /\
    count is_ai t = count is_read_ok t /\
    count is_write t = count is_ai_ok t /\
    filter is_warn t = [].
Proof.
  induction es as [| [index file] rest IH]; intros s e w.
  - exists w, []. cbn. rewrite !Nat.add_0_r. auto.
  - destruct (process_file_tally index file s e w)
      as (w1 & t1 & Hfile & Hr1 & Ha1 & Hw1 & Hwarn1).
    destruct (iteration_run host folderPath options files_length index file s e w)
      as (counts' & w1' & w1'' & t1' & Hfile' & _ & Hiter).
    rewrite Hfile in Hfile'. inversion Hfile'; subst counts' w1' t1'. clear Hfile'.
    destruct (IH (s + count is_write_ok t1) (e + length (raised t1)) w1'')
      as (w' & t2 & Hrest & Hr2 & Ha2 & Hw2 & Hwarn2).
    exists w', ((t1 ++ delay_after files_length index) ++ t2)%list.
    rewrite for_entries_cons. unfold bind. rewrite Hiter, Hrest.
    rewrite !count_app, !raised_app, raised_delay_after, !length_app, !filter_app.
    rewrite !count_delay_after by reflexivity.
    rewrite Hwarn1, Hwarn2.
    assert (Hd : filter is_warn (delay_after files_length index) = [])
      by (unfold delay_after; now destruct (_ <? _)%Z).
    rewrite Hd. cbn [length app].
    split; [| repeat split; lia].
    match goal with
    | |- (Normal (?a, ?b), _, _) = (Normal (?a', ?b'), _, _) =>
        replace a' with a by lia; replace b' with b by lia
    end.
    reflexivity.
Qed.

End MoreLoopFacts.

Section MoreLoopFacts2.

Context {W : Type} (host : Host W).
Variables (folderPath : string) (files_length : nat).

(** An iteration, as an equation. *)
Lemma iteration_eq options index file counts w :
  iteration host folderPath options files_length index file counts w =
  match process_file host folderPath options files_length index file counts w with
  | (Normal counts', w', t) =>
      (Normal counts',
       if (Z.of_nat index <? Z.of_nat files_length - 1)%Z
       then setTimeout host 500 w' else w',
       (t ++ delay_after files_length index)%list)
  | (Throw err, w', t) => (Throw err, w', t)
  end.
Proof.
  unfold iteration, bind, when, sleep, ret, delay_after.
  destruct (process_file host folderPath options files_length index file counts w)
    as [[[counts' | err] w'] t]; [| reflexivity].
  destruct (Z.of_nat index <? Z.of_nat files_length - 1)%Z; reflexivity.
Qed.



(** In verbose mode the handler of a file prints the first frame of the
    stack of what it caught. *)
Lemma process_file_stack options index file counts w err :
  ToBoolean (verbose options) = true ->
  In err
    (raised (trace_of (process_file host folderPath options files_length index file
                         counts w))) ->
  In (EvConsole Error [VString "   Stack:"; VString (first_stack_frame host err)])
    (trace_of (process_file host folderPath options files_length index file counts w)).
Proof.
  intros Hverbose. destruct counts as [s e].
  cbv beta iota zeta delta
    [process_file try_catch bind when ret throw emit emit_all
     console_log console_warn console_error stdout_write sleep
     fs_readFileSync call_callGemini call_writeMarkdown
     result_of trace_of fst snd].
  rewrite Hverbose.
  destruct (readFileSync host file w) as [[content | err1] w1];
    [ match goal with
      | |- context [callGemini host ?p ?w] =>
          destruct (callGemini host p w) as [[doc | err2] w2]
      end;
      [ match goal with
        | |- context [writeMarkdown host ?f ?d ?o ?w] =>
            destruct (writeMarkdown host f d o w) as [[outputPath | err3] w3]
        end | ] | ];
    cbn [app raised thrown_by]; intros Hin;
    try contradiction; destruct Hin as [<- | []]; in_trace.
Qed.

Section TwoOptions.

Variables (o1 o2 : Options).
Hypothesis same_output : output o1 = output o2.

(** Verbosity changes what is shown for a file and nothing else. *)
Lemma process_file_display_only index file counts w :
  exists r w' t1 t2,
    process_file host folderPath o1 files_length index file counts w = (r, w', t1) /\
    process_file host folderPath o2 files_length index file counts w = (r, w', t2) /\
    effects t1 = effects t2.
Proof.
  destruct counts as [s e].
  cbv beta iota zeta delta
    [process_file try_catch bind when ret throw emit emit_all
     console_log console_warn console_error stdout_write sleep
     fs_readFileSync call_callGemini call_writeMarkdown
     result_of trace_of fst snd].
  rewrite same_output.
  destruct (ToBoolean (verbose o1)), (ToBoolean (verbose o2));
    (destruct (readFileSync host file w) as [[content | err1] w1];
     [ match goal with
       | |- context [callGemini host ?p ?w] =>
           destruct (callGemini host p w) as [[doc | err2] w2]
       end;
       [ match goal with
         | |- context [writeMarkdown host ?f ?d ?o ?w] =>
             destruct (writeMarkdown host f d o w) as [[outputPath | err3] w3]
         end | ] | ]);
    do 4 eexists; (split; [reflexivity |]); (split; [reflexivity |]); reflexivity.
Qed.

Lemma for_entries_display_only es : forall counts w,
  exists r w' t1 t2,
    for_entries host folderPath o1 files_length es counts w = (r, w', t1) /\
    for_entries host folderPath o2 files_length es counts w = (r, w', t2) /\
    effects t1 = effects t2.
Proof.
  induction es as [| [index file] rest IH]; intros counts w.
  - exists (Normal counts), w, [], []. auto.
  - destruct (process_file_display_only index file counts w)
      as (r & w' & t1 & t2 & H1 & H2 & Ht).
    rewrite !for_entries_cons. unfold bind. rewrite !iteration_eq, H1, H2.
    destruct r as [counts' | err].
    + match goal with
      | |- context [for_entries _ _ o1 _ rest counts' ?w0] =>
          destruct (IH counts' w0) as (r' & w'' & t1' & t2' & H1' & H2' & Ht')
      end.
      rewrite H1', H2'. do 4 eexists. split; [reflexivity |]. split; [reflexivity |].
      rewrite !effects_app, Ht, Ht'. reflexivity.
    + do 4 eexists. auto.
Qed.

End TwoOptions.

End MoreLoopFacts2.

(** ** Further facts on what a run shows *)

Lemma length_entries (files : list string) : length (entries files) = length files.
Proof. rewrite <- (entries_files files) at 2. now rewrite length_map. Qed.


Lemma filter_intro_events (p : Event -> bool) options folder files :
  (forall s args, p (EvConsole s args) = false) ->
  (forall path r, p (EvExistsSync path r) = false) ->
  (forall pattern r, p (EvGlob pattern r) = false) ->
  filter p (intro_events options folder files) = [].
Proof.
  intros Hconsole Hexists Hglob. unfold intro_events.
  destruct (ToBoolean (verbose options));
    repeat first
      [ progress cbn [app filter]
      | rewrite Hconsole | rewrite Hexists | rewrite Hglob
      | rewrite filter_app
      | rewrite filter_first_files_lines by exact Hconsole ];
    reflexivity.
Qed.

Lemma filter_summary_events {W : Type} (host : Host W) (p : Event -> bool) options s e :
  (forall stream args, p (EvConsole stream args) = false) ->
  filter p (summary_events host options s e) = [].
Proof.
  intros Hconsole. unfold summary_events, summary_line, error_warning.
  destruct (0 <? e)%nat, (output options), (ToBoolean (verbose options));
    cbn [app filter]; rewrite ?Hconsole; reflexivity.
Qed.

(** The per-file steps of a run are those of its loop. *)
Lemma calls_run {W : Type} (host : Host W) options folder files t_loop s e :
  calls (intro_events options folder files ++ t_loop ++ summary_events host options s e) =
  calls t_loop.
Proof.
  unfold calls.
  rewrite !filter_app, filter_intro_events, filter_summary_events by reflexivity.
  now rewrite app_nil_r.
Qed.

Lemma count_run {W : Type} (host : Host W) (p : Event -> bool) options folder files
  t_loop s e :
  (forall ev, p ev = true -> is_call ev = true) ->
  count p (intro_events options folder files ++ t_loop ++ summary_events host options s e) =
  count p t_loop.
Proof.
  intros Hp. rewrite <- count_calls by exact Hp.
  rewrite calls_run. now apply count_calls.
Qed.

Lemma raised_run {W : Type} (host : Host W) options folder files t_loop s e :
  raised (intro_events options folder files ++ t_loop ++ summary_events host options s e) =
  raised t_loop.
Proof. now rewrite <- raised_calls, calls_run, raised_calls. Qed.

Lemma is_read_call ev : is_read ev = true -> is_call ev = true.
Proof. now destruct ev. Qed.

Lemma is_read_ok_call ev : is_read_ok ev = true -> is_call ev = true.
Proof. now destruct ev. Qed.

Lemma is_ai_call ev : is_ai ev = true -> is_call ev = true.
Proof. now destruct ev. Qed.

Lemma is_ai_ok_call ev : is_ai_ok ev = true -> is_call ev = true.
Proof. now destruct ev. Qed.

Lemma is_write_call ev : is_write ev = true -> is_call ev = true.
Proof. now destruct ev. Qed.

Lemma is_write_ok_call ev : is_write_ok ev = true -> is_call ev = true.
Proof. now destruct ev. Qed.

Lemma count_no_calls (p : Event -> bool) (t : list Event) :
  (forall ev, p ev = true -> is_call ev = true) ->
  calls t = [] -> count p t = 0.
Proof. intros Hp Hc. rewrite <- count_calls by exact Hp. now rewrite Hc. Qed.

(** A stack of one line has no second line. *)
Lemma split_lines_one_line (s : string) : one_line s = true -> split_lines s = [s].
Proof.
  induction s as [| c rest IH]; [reflexivity |].
  cbn [one_line split_lines]. intros H. apply andb_prop in H as [Hc Hrest].
  apply negb_true_iff in Hc. rewrite Hc, (IH Hrest). reflexivity.
Qed.

Lemma split_lines_first_line (line rest : string) :
  one_line line = true ->
  split_lines (line ++ nl ++ rest) = line :: split_lines rest.
Proof.
  induction line as [| c line IH]; [reflexivity |].
  cbn [one_line]. intros H. apply andb_prop in H as [Hc Hline].
  apply negb_true_iff in Hc.
  change ((String c line ++ nl ++ rest)) with (String c (line ++ nl ++ rest)).
  cbn [split_lines]. rewrite Hc, (IH Hline). reflexivity.
Qed.



(** In a sequential trace a write comes right after the AI call of its
    file and writes what that call returned. *)
Lemma sequential_write relative out files tr file doc out' r :
  Sequential relative out files tr ->
  In (EvWriteMarkdown file doc out' r) tr ->
  out' = out /\
  In file files /\
  exists content before after,
    tr = (before ++
          [EvReadFileSync file (Normal content);
           EvCallGemini (build_prompt (relative file) content) (Normal doc);
           EvWriteMarkdown file doc out' r] ++ after)%list.
Proof.
  induction 1 as [| f files block rest Hblock Hrest IH]; intros Hin; [contradiction |].
  apply in_app_or in Hin as [Hin | Hin].
  - destruct Hblock as [err | content err | content doc0 r0];
      cbn [In] in Hin;
      repeat match goal with
             | H : _ \/ _ |- _ => destruct H
             | H : False |- _ => contradiction
             | H : _ = EvWriteMarkdown _ _ _ _ |- _ => inversion H; clear H; subst
             end.
    split; [reflexivity |]. split; [now left |].
    exists content, [], rest. reflexivity.
  - destruct (IH Hin) as (Hout & Hfile & content & before & after & ->).
    split; [exact Hout |]. split; [now right |].
    exists content, (block ++ before)%list, after.
    now rewrite <- app_assoc.
Qed.

Lemma warn_intro_events options folder files :
  filter is_warn (intro_events options folder files) = [].
Proof.
  assert (Hlines : forall l i, filter is_warn (first_files_lines i l) = []).
  { induction l as [| f l IH]; intros i; cbn [first_files_lines filter is_warn]; auto. }
  unfold intro_events.
  destruct (ToBoolean (verbose options));
    repeat first [ progress cbn [app filter is_warn] | rewrite filter_app | rewrite Hlines ];
    reflexivity.
Qed.

Lemma summary_in_run {W : Type} (host : Host W) options folder files t_loop s e :
  In (summary_line s)
    (intro_events options folder files ++ t_loop ++ summary_events host options s e).
Proof.
  apply in_or_app. right. apply in_or_app. right.
  unfold summary_events. in_trace.
Qed.

Lemma files_read_run {W : Type} (host : Host W) options folder files t_loop s e :
  files_read
    (intro_events options folder files ++ t_loop ++ summary_events host options s e) =
  files_read t_loop.
Proof. now rewrite <- files_read_calls, calls_run, files_read_calls. Qed.

(** Without delays, or without per-file steps, the steps of a trace are
    its per-file steps, or its delays. *)
Lemma steps_no_delay (t : list Event) : delays t = [] -> steps t = calls t.
Proof.
  unfold steps, calls, delays, is_step.
  induction t as [| ev t IH]; [reflexivity |].
  cbn [filter]. destruct (is_delay ev) eqn:Hdelay; [discriminate |].
  intros H. rewrite orb_false_r, (IH H). reflexivity.
Qed.

Section Pacing.

Context {W : Type} (host : Host W).
Variables (folderPath : string) (options : Options) (files_length : nat).

Lemma steps_delay_after index :
  steps (delay_after files_length index) = delay_after files_length index.
Proof. unfold delay_after. now destruct (_ <? _)%Z. Qed.

(** The loop over the entries from [start] on, up to the last one. *)
Lemma for_entries_paced files : forall start counts w,
  start + length files = files_length ->
  Paced (path_relative host folderPath) (output options) files
    (steps (trace_of (for_entries host folderPath options files_length
                        (combine (seq start (length files)) files) counts w))).
Proof.
  induction files as [| file rest IH]; intros start [s e] w Hlen.
  - constructor.
  - cbn [length seq combine]. rewrite for_entries_cons. unfold bind.
    destruct (iteration_run host folderPath options files_length start file s e w)
      as (counts' & w1 & w1' & t1 & _ & [_ Hblock Hnodelay _ _ _] & ->).
    specialize (IH (S start) counts' w1').
    destruct (for_entries host folderPath options files_length
                (combine (seq (S start) (length rest)) rest) counts' w1')
      as [[r w2] t2].
    cbn [trace_of snd] in *. unfold steps in *.
    rewrite !filter_app. fold (steps t1) (steps (delay_after files_length start)).
    rewrite (steps_no_delay t1 Hnodelay), steps_delay_after.
    cbn [length] in Hlen.
    unfold delay_after.
    destruct rest as [| next rest].
    + destruct (Z.ltb_spec (Z.of_nat start) (Z.of_nat files_length - 1));
        [cbn [length] in Hlen; lia |].
      assert (Hrest : Paced (path_relative host folderPath) (output options) []
                        (filter is_step t2)) by (apply IH; cbn [length] in *; lia).
      inversion Hrest as [Hnil | |]. cbn [app]. rewrite !app_nil_r.
      now apply paced_last.
    + destruct (Z.ltb_spec (Z.of_nat start) (Z.of_nat files_length - 1));
        [| cbn [length] in Hlen; lia].
      rewrite <- app_assoc. cbn [app].
      constructor; [exact Hblock |].
      apply IH. cbn [length] in *. lia.
Qed.

End Pacing.

(** ** The step that follows a step *)

Lemma sequential_head relative out files tr :
  Sequential relative out files tr -> next_is_read tr.
Proof.
  destruct 1 as [| file files block rest Hblock Hrest]; [now left |].
  right. destruct Hblock; cbn [app]; eauto.
Qed.

Lemma step_rule_prefix relative out pre before ev after :
  StepRule relative out before ev after ->
  StepRule relative out (pre ++ before) ev after.
Proof.
  destruct 1; rewrite ?app_assoc; now constructor.
Qed.

(** Every per-file step of a sequential trace stands where [StepRule]
    says. *)
Lemma sequential_step relative out files tr :
  Sequential relative out files tr ->
  forall before ev after,
    tr = (before ++ ev :: after)%list ->
    StepRule relative out before ev after.
Proof.
  induction 1 as [| file files block rest Hblock Hrest IH]; intros before ev after Heq.
  - now destruct before.
  - pose proof (sequential_head _ _ _ _ Hrest) as Hhead.
    destruct Hblock as [err | content err | content doc r].
    + destruct before as [| b0 before]; cbn [app] in Heq; inversion Heq; subst.
      * now constructor.
      * apply (step_rule_prefix _ _ [_]). now apply IH.
    + destruct before as [| b0 [| b1 before]]; cbn [app] in Heq; inversion Heq; subst.
      * constructor.
      * apply (rule_ai_throws _ _ []). exact Hhead.
      * apply (step_rule_prefix _ _ [_; _]). now apply IH.
    + destruct before as [| b0 [| b1 [| b2 before]]]; cbn [app] in Heq;
        inversion Heq; subst.
      * constructor.
      * apply (rule_ai_returns _ _ []).
      * apply (rule_write _ _ []). exact Hhead.
      * apply (step_rule_prefix _ _ [_; _; _]). now apply IH.
Qed.

(** ** The lines of a stack *)

Lemma append_empty_r (s : string) : s ++ "" = s.
Proof. induction s as [| c s IH]; cbn; [reflexivity | now rewrite IH]. Qed.

(** A string of several lines is a first line, a second line, and either
    nothing more or a line feed and the rest. *)
Lemma first_line_split (s : string) :
  one_line s = false ->
  exists first rest, s = first ++ nl ++ rest /\ one_line first = true.
Proof.
  induction s as [| c s IH]; [discriminate |].
  cbn [one_line]. destruct (Ascii.eqb c (ascii_of_nat 10)) eqn:Hc; cbn [negb andb].
  - intros _. apply Ascii.eqb_eq in Hc. subst c. exists "", s. split; reflexivity.
  - intros Hs. destruct (IH Hs) as (first & rest & -> & Hfirst).
    exists (String c first), rest. split; [reflexivity |].
    cbn [one_line]. now rewrite Hc, Hfirst.
Qed.

Lemma two_lines_split (s : string) :
  one_line s = false ->
  exists first frame tail,
    s = first ++ nl ++ frame ++ tail /\
    one_line first = true /\
    one_line frame = true /\
    (tail = "" \/ exists more, tail = nl ++ more).
Proof.
  intros Hs. destruct (first_line_split s Hs) as (first & rest & -> & Hfirst).
  destruct (one_line rest) eqn:Hrest.
  - exists first, rest, "". rewrite append_empty_r. auto.
  - destruct (first_line_split rest Hrest) as (frame & more & -> & Hframe).
    exists first, frame, (nl ++ more). eauto 6.
Qed.

(** The second line of such a stack. *)
Lemma split_lines_second first frame tail :
  one_line first = true ->
  one_line frame = true ->
  tail = "" \/ (exists more, tail = nl ++ more) ->
  nth_error (split_lines (first ++ nl ++ frame ++ tail)) 1 = Some frame.
Proof.
  intros Hfirst Hframe Htail.
  rewrite (split_lines_first_line first (frame ++ tail) Hfirst).
  cbn [nth_error].
  destruct Htail as [-> | (more & ->)].
  - now rewrite append_empty_r, (split_lines_one_line frame Hframe).
  - now rewrite (split_lines_first_line frame more Hframe).
Qed.

(** ** Further properties of the pipeline *)

Section Extras.

Context {W : Type} (host : Host W).

(** X1.  File by file, a step is taken only when the step before it
    returned.  In the per-file steps of any run: the first step is a
    read; a read that threw is followed by the read of the next file (or
    by nothing), not by an AI call or a write; a read that returned is
    followed at once by the AI call on the prompt of that very file; an
    AI call that threw is followed by the read of the next file (or by
    nothing), not by a write; an AI call that returned is followed at
    once by the write, for that very file, of what it returned; a write
    is followed by the read of the next file (or by nothing).  The files
    read are the discovered files, each once, in discovery order.  So the
    AI Client is called once for each read that returned and the
    Markdown Writer once for each AI call that returned. *)
Theorem steps_follow_their_predecessor fp opts w :
  let run := analyzeCodebase host fp opts w in
  next_is_read (calls (trace_of run)) /\
  (forall folder before ev after,
     fp = VString folder ->
     calls (trace_of run) = (before ++ ev :: after)%list ->
     StepRule (path_relative host folder) (output (options_or_default opts))
       before ev after) /\
  (forall files,
     discovered run files ->
     files_read (trace_of run) = files /\ count is_read (trace_of run) = length files) /\
  count is_ai (trace_of run) = count is_read_ok (trace_of run) /\
  count is_write (trace_of run) = count is_ai_ok (trace_of run).
Proof.
  intros run. subst run. by_shape host fp opts w.
  assert (Hnone : forall t : list Event,
            calls t = [] ->
            next_is_read (calls t) /\
            (forall folder before ev after,
               fp = VString folder ->
               calls t = (before ++ ev :: after)%list ->
               StepRule (path_relative host folder) (output (options_or_default opts))
                 before ev after) /\
            files_read t = [] /\ count is_read t = 0 /\
            count is_ai t = count is_read_ok t /\
            count is_write t = count is_ai_ok t).
  { intros t Hc.
    rewrite !count_no_calls
      by first [ exact Hc | exact is_ai_call | exact is_read_ok_call
               | exact is_write_call | exact is_ai_ok_call | exact is_read_call ].
    rewrite <- files_read_calls, Hc.
    repeat split; try now left.
    intros folder before ev after _ Heq. now destruct before. }
  destruct Hshape
    as [ Hv | Hv Ho | folder t Hfp Hv Ho Hex Hg Hc Hd Hl
       | folder err w1 t Hfp Hv Ho Hex Hglob Hg Hc Hd Hl
       | folder w1 t Hfp Hv Ho Hex Hglob Hg Hc Hd Hwarn
       | folder fs w1 s e w2 tl r t Hfp Hv Ho Hex Hglob Hne Hloop Hg Hc Hd Hsum Hr ];
    cbn [trace_of snd].
  - destruct (Hnone [] eq_refl) as (H1 & H2 & _ & _ & H5 & H6).
    repeat split; auto; destruct H as [p []].
  - destruct (Hnone [] eq_refl) as (H1 & H2 & _ & _ & H5 & H6).
    repeat split; auto; destruct H as [p []].
  - destruct (Hnone t Hc) as (H1 & H2 & _ & _ & H5 & H6).
    repeat split; auto; now apply discovered_some_glob in H.
  - destruct (Hnone t Hc) as (H1 & H2 & _ & _ & H5 & H6).
    repeat split; auto;
      now apply discovered_only_glob with (1 := H) in Hg.
  - destruct (Hnone t Hc) as (H1 & H2 & H3 & H4 & H5 & H6).
    repeat split; auto;
      apply discovered_only_glob with (1 := H) in Hg; inversion Hg; subst; auto.
  - destruct (for_entries_tally host folder (options_or_default opts) (length fs)
                (entries fs) 0 0 w1) as (w' & t' & Heq & Hreads & Hai & Hwrite & _).
    destruct (for_entries_run host folder (options_or_default opts) (length fs)
                (entries fs) 0 0 w1) as (s' & e' & w'' & t'' & Heq' & [_ _ Hseq _ _ _ _]).
    rewrite Hloop in Heq, Heq'. inversion Heq; subst t'. inversion Heq'; subst t''.
    rewrite entries_files in Hseq.
    rewrite <- (count_calls is_ai), <- (count_calls is_read_ok),
      <- (count_calls is_write), <- (count_calls is_ai_ok),
      <- (count_calls is_read), <- files_read_calls
      by first [ exact is_ai_call | exact is_read_ok_call | exact is_write_call
               | exact is_ai_ok_call | exact is_read_call ].
    rewrite Hc.
    rewrite !count_calls
      by first [ exact is_ai_call | exact is_read_ok_call | exact is_write_call
               | exact is_ai_ok_call | exact is_read_call ].
    split; [exact (sequential_head _ _ _ _ Hseq) |].
    split.
    { intros folder' before ev after Hfp' Heq''.
      rewrite Hfp' in Hfp. inversion Hfp; subst folder'.
      exact (sequential_step _ _ _ _ Hseq before ev after Heq''). }
    split; [| split; auto].
    intros files Hdisc.
    apply discovered_only_glob with (1 := Hdisc) in Hg. inversion Hg; subst fs.
    split; [exact (sequential_files_read _ _ _ _ Hseq) |].
    now rewrite Hreads, length_entries.
Qed.

(** X2.  The number of files the summary reports as documented is the
    number of calls of the Markdown Writer that returned, and with the
    number of exceptions the per-file steps raised it adds up to the
    number of discovered files. *)
Theorem summary_counts_written_documents fp opts w files :
  let run := analyzeCodebase host fp opts w in
  discovered run files ->
  files <> [] ->
  In (summary_line (count is_write_ok (trace_of run))) (trace_of run) /\
  count is_write_ok (trace_of run) + length (raised (trace_of run)) = length files.
Proof.
  intros run Hdisc Hne. subst run.
  destruct (discovered_files_trace host fp opts w files Hdisc Hne)
    as (folder & w1 & s & e & w2 & tl & _ & _ & Hloop & ->).
  destruct (for_entries_tally host folder (options_or_default opts) (length files)
              (entries files) 0 0 w1) as (w' & t' & Heq & Hreads & Hai & Hwrite & _).
  destruct (for_entries_run host folder (options_or_default opts) (length files)
              (entries files) 0 0 w1) as (s' & e' & w'' & t'' & Heq' & [Htot _ _ _ _ _ _]).
  rewrite Hloop in Heq, Heq'. inversion Heq; subst t'. inversion Heq'; subst s' e' w'' t''.
  cbn [trace_of snd].
  rewrite count_run by exact is_write_ok_call. rewrite raised_run.
  rewrite length_entries in Htot.
  split; [| cbn [Nat.add] in *; lia].
  cbn [Nat.add]. apply summary_in_run.
Qed.

(** X3.  A run that discovered files warns only about errors: it prints
    no warning when no per-file step raised an exception, and otherwise
    exactly one, the line with the number of exceptions. *)
Theorem error_warning_iff_exception fp opts w files :
  let run := analyzeCodebase host fp opts w in
  discovered run files ->
  files <> [] ->
  filter is_warn (trace_of run) =
    match raised (trace_of run) with
    | [] => []
    | _ :: _ => [error_warning (length (raised (trace_of run)))]
    end.
Proof.
  intros run Hdisc Hne. subst run.
  destruct (discovered_files_trace host fp opts w files Hdisc Hne)
    as (folder & w1 & s & e & w2 & tl & _ & _ & Hloop & ->).
  destruct (for_entries_tally host folder (options_or_default opts) (length files)
              (entries files) 0 0 w1) as (w' & t' & Heq & _ & _ & _ & Hwarn).
  rewrite Hloop in Heq. inversion Heq; subst t'.
  cbn [trace_of snd]. rewrite raised_run.
  rewrite !filter_app, Hwarn, warn_intro_events.
  cbn [app Nat.add].
  unfold summary_events, summary_line.
  destruct (raised tl) as [| err errs]; cbn [length Nat.ltb Nat.leb];
    destruct (output (options_or_default opts)),
      (ToBoolean (verbose (options_or_default opts)));
    reflexivity.
Qed.

(** X4.  [analyzeCodebase] returns normally exactly when the folder path
    is a non-empty string, [options.output] is truthy, the folder exists,
    discovery returns, and either it found no file or [options.output] is
    a string.  In every other case it throws. *)
Theorem returns_normally_iff fp opts w :
  result_of (analyzeCodebase host fp opts w) = Normal tt <->
  exists folder files w1,
    fp = VString folder /\
    valid_folder fp = true /\
    ToBoolean (output (options_or_default opts)) = true /\
    existsSync host folder w = true /\
    glob host (folder ++ "/**/*.js") w = (Normal files, w1) /\
    (files = [] \/ is_string (output (options_or_default opts)) = true).
Proof.
  pose proof (analyzeCodebase_shape host fp opts w) as Hshape.
  remember (analyzeCodebase host fp opts w) as run eqn:Hrun.
  destruct Hshape
    as [ Hv | Hv Ho | folder t Hfp Hv Ho Hex Hg Hc Hd Hl
       | folder err w1 t Hfp Hv Ho Hex Hglob Hg Hc Hd Hl
       | folder w1 t Hfp Hv Ho Hex Hglob Hg Hc Hd Hwarn
       | folder fs w1 s e w2 tl r t Hfp Hv Ho Hex Hglob Hne Hloop Hg Hc Hd Hsum Hr ];
    cbn [result_of fst]; split;
    try discriminate;
    try (intros (folder' & files & w1' & Hfp' & Hv' & Ho' & Hex' & Hglob' & _);
         try congruence;
         rewrite Hfp' in Hfp; inversion Hfp; subst folder'; congruence).
  - intros _. exists folder, [], w1. auto 10.
  - intros ->. exists folder, fs, w1. repeat split; auto. right.
    subst fp.
    rewrite (analyzeCodebase_files host folder opts w fs w1 s e w2 tl
               Hv Ho Hex Hglob Hne Hloop) in Hrun.
    inversion Hrun as [[Hres Ht]]. unfold summary_result in Hres.
    now destruct (output (options_or_default opts)).
  - intros (folder' & files & w1' & Hfp' & Hv' & Ho' & Hex' & Hglob' & Hcase).
    rewrite Hfp' in Hfp. inversion Hfp; subst folder'.
    rewrite Hglob in Hglob'. inversion Hglob'; subst files w1'.
    destruct Hcase as [-> | Hstr]; [now elim Hne |].
    destruct Hr as [-> | [Hnot _]]; [reflexivity | congruence].
Qed.

(** X5.  When [options.output] is truthy but not a string and discovery
    found files, the run reads every file, prints the summary with its
    count, and then throws the [TypeError] of [path.resolve], which the
    outer handler logs. *)
Theorem non_string_output_throws_after_loop fp opts w files :
  let run := analyzeCodebase host fp opts w in
  let out := output (options_or_default opts) in
  discovered run files ->
  files <> [] ->
  is_string out = false ->
  result_of run = Throw (invalid_arg_type host out) /\
  logged (trace_of run) (invalid_arg_type host out) /\
  In (summary_line (count is_write_ok (trace_of run))) (trace_of run) /\
  files_read (trace_of run) = files.
Proof.
  intros run out Hdisc Hne Hstr. subst run out.
  destruct (discovered_files_trace host fp opts w files Hdisc Hne)
    as (folder & w1 & s & e & w2 & tl & _ & _ & Hloop & ->).
  destruct (for_entries_tally host folder (options_or_default opts) (length files)
              (entries files) 0 0 w1) as (w' & t' & Heq & _).
  destruct (for_entries_run host folder (options_or_default opts) (length files)
              (entries files) 0 0 w1) as (s' & e' & w'' & t'' & Heq' & [_ _ Hseq _ _ _ _]).
  rewrite Hloop in Heq, Heq'. inversion Heq; subst t'. inversion Heq'; subst s' e' w'' t''.
  cbn [result_of trace_of fst snd Nat.add].
  rewrite count_run by exact is_write_ok_call. rewrite files_read_run.
  repeat split.
  - unfold summary_result. now destruct (output (options_or_default opts)).
  - unfold logged. apply in_or_app. right. apply in_or_app. right.
    unfold summary_events.
    destruct (0 <? length (raised tl))%nat, (output (options_or_default opts));
      try discriminate Hstr; in_trace.
  - apply summary_in_run.
  - rewrite entries_files in Hseq. rewrite <- files_read_calls.
    exact (sequential_files_read _ _ _ _ Hseq).
Qed.

(** X6.  [options.verbose] changes only what is shown: two calls whose
    options agree on [output] end the same way, leave the same world and
    make the same calls into the filesystem, the glob, the AI Client, the
    Markdown Writer and the timer, in the same order and with the same
    arguments and outcomes. *)
Theorem verbose_is_display_only fp o1 o2 w :
  output o1 = output o2 ->
  result_of (analyzeCodebase host fp (Some o1) w) =
    result_of (analyzeCodebase host fp (Some o2) w) /\
  world_of (analyzeCodebase host fp (Some o1) w) =
    world_of (analyzeCodebase host fp (Some o2) w) /\
  effects (trace_of (analyzeCodebase host fp (Some o1) w)) =
    effects (trace_of (analyzeCodebase host fp (Some o2) w)).
Proof.
  intros Hout. unfold analyzeCodebase. cbn [options_or_default].
  rewrite valid_folder_test, Hout.
  destruct (valid_folder fp) eqn:Hvalid; cbn [negb]; [| auto].
  destruct (ToBoolean (output o2)); cbn [negb]; [| auto].
  destruct fp as [| | | | | folder |]; try discriminate Hvalid.
  cbv beta iota zeta delta
    [try_catch analyze_body analyze_handler bind when ret throw emit emit_all
     console_log console_warn console_error stdout_write
     fs_existsSync call_glob path_resolve_value].
  rewrite Hout.
  destruct (existsSync host folder w); cbn [negb].
  2: { destruct (ToBoolean (verbose o1)), (ToBoolean (verbose o2)); auto. }
  destruct (ToBoolean (verbose o1)), (ToBoolean (verbose o2)).
  all: destruct (glob host (folder ++ "/**/*.js") w) as [[files | err] w1];
    [| auto].
  all: destruct (length files =? 0)%nat; [auto |].
  all: destruct (for_entries_display_only host folder (length files) o1 o2 Hout
                   (entries files) (0, 0) w1) as (r & w' & t1 & t2 & H1 & H2 & Ht).
  all: rewrite H1, H2.
  all: destruct r as [[s e] | err]; [destruct (0 <? e)%nat, (output o2) |].
  all: cbn [result_of world_of trace_of fst snd]; repeat split.
  all: unfold effects in *.
  all: repeat first
         [ progress cbn [app filter is_display negb]
         | rewrite filter_app
         | rewrite filter_first_files_lines by reflexivity
         | rewrite app_nil_r ].
  all: rewrite Ht; reflexivity.
Qed.



(** X9.  In verbose mode the handler of a file prints, after the error,
    a line for the stack.  It is the text 'No stack trace' when the error
    has no stack or its stack has a single line.  For every other stack,
    of two lines or of more, it is the second line trimmed, whatever
    follows that line, or again 'No stack trace' when the second line
    trims to nothing.  Every stack of several lines has such a second
    line. *)
Theorem stack_frame_fallback folderPath options len index file counts w err :
  let run := process_file host folderPath options len index file counts w in
  ToBoolean (verbose options) = true ->
  In err (raised (trace_of run)) ->
  (stack err = None \/ (exists s, stack err = Some s /\ one_line s = true) ->
   In (EvConsole Error [VString "   Stack:"; VString "No stack trace"]) (trace_of run)) /\
  (forall first frame tail,
     stack err = Some (first ++ nl ++ frame ++ tail) ->
     one_line first = true ->
     one_line frame = true ->
     tail = "" \/ (exists more, tail = nl ++ more) ->
     In (EvConsole Error
           [VString "   Stack:";
            VString (if (trim host frame =? "") then "No stack trace"
                     else trim host frame)])
        (trace_of run)) /\
  (forall s,
     stack err = Some s ->
     one_line s = false ->
     exists first frame tail,
       s = first ++ nl ++ frame ++ tail /\
       one_line first = true /\
       one_line frame = true /\
       (tail = "" \/ exists more, tail = nl ++ more) /\
       In (EvConsole Error
             [VString "   Stack:";
              VString (if (trim host frame =? "") then "No stack trace"
                       else trim host frame)])
          (trace_of run)).
Proof.
  intros run Hverbose Hin. subst run.
  pose proof (process_file_stack host folderPath len options index file counts w err
                Hverbose Hin) as Hframe.
  assert (Hsecond : forall first frame tail,
            stack err = Some (first ++ nl ++ frame ++ tail) ->
            one_line first = true ->
            one_line frame = true ->
            tail = "" \/ (exists more, tail = nl ++ more) ->
            In (EvConsole Error
                  [VString "   Stack:";
                   VString (if (trim host frame =? "") then "No stack trace"
                            else trim host frame)])
               (trace_of (process_file host folderPath options len index file counts w))).
  { intros first frame tail Hsome Hfirst Hone Htail.
    unfold first_stack_frame in Hframe.
    rewrite Hsome, (split_lines_second first frame tail Hfirst Hone Htail) in Hframe.
    exact Hframe. }
  split; [| split; [exact Hsecond |]].
  - intros [Hnone | (s & Hsome & Hone)].
    + unfold first_stack_frame in Hframe. now rewrite Hnone in Hframe.
    + unfold first_stack_frame in Hframe.
      now rewrite Hsome, (split_lines_one_line s Hone) in Hframe.
  - intros s Hsome Hmany.
    destruct (two_lines_split s Hmany) as (first & frame & tail & -> & Hfirst & Hone & Htail).
    exists first, frame, tail. repeat split; auto.
    now apply Hsecond with (first := first) (tail := tail).
Qed.

(** X10.  A run makes a discovery only when its arguments pass the two
    checks and the folder exists, and then exactly one: a run whose
    folder path is not a non-empty string or whose [options.output] is
    falsy makes none, even when the folder exists; a run whose folder is
    missing makes none; every other run calls the glob once, on the
    folder path followed by [/**/*.js], and the outcome recorded is what
    the glob returned. *)
Theorem discovery_is_single_and_rooted fp opts w :
  let run := analyzeCodebase host fp opts w in
  (valid_folder fp = false \/ ToBoolean (output (options_or_default opts)) = false ->
   filter is_glob (trace_of run) = []) /\
  (forall folder,
     fp = VString folder ->
     existsSync host folder w = false ->
     filter is_glob (trace_of run) = []) /\
  (forall folder,
     fp = VString folder ->
     valid_folder fp = true ->
     ToBoolean (output (options_or_default opts)) = true ->
     existsSync host folder w = true ->
     filter is_glob (trace_of run) =
       [EvGlob (folder ++ "/**/*.js") (fst (glob host (folder ++ "/**/*.js") w))]) /\
  (filter is_glob (trace_of run) = [] \/
   exists folder,
     fp = VString folder /\
     existsSync host folder w = true /\
     filter is_glob (trace_of run) =
       [EvGlob (folder ++ "/**/*.js") (fst (glob host (folder ++ "/**/*.js") w))]).
Proof.
  intros run. subst run. by_shape host fp opts w.
  destruct Hshape
    as [ Hv | Hv Ho | folder t Hfp Hv Ho Hex Hg Hc Hd Hl
       | folder err w1 t Hfp Hv Ho Hex Hglob Hg Hc Hd Hl
       | folder w1 t Hfp Hv Ho Hex Hglob Hg Hc Hd Hwarn
       | folder fs w1 s e w2 tl r t Hfp Hv Ho Hex Hglob Hne Hloop Hg Hc Hd Hsum Hr ];
    cbn [trace_of snd];
    (split; [intros [Hbad | Hbad]; first [reflexivity | congruence] |]);
    (split;
     [ intros folder' Hfp' Hex';
       first [ reflexivity | exact Hg
             | rewrite Hfp' in Hfp; inversion Hfp; subst folder'; congruence ] |]);
    (split;
     [ intros folder' Hfp' Hv' Ho' Hex';
       first [ congruence
             | rewrite Hfp' in Hfp; inversion Hfp; subst folder';
               first [ congruence | rewrite Hglob; exact Hg ] ] |]);
    first [ left; first [reflexivity | exact Hg]
          | right; exists folder; rewrite Hglob; auto ].
Qed.

(** X11.  What the Markdown Writer is given for a file is the source
    path as discovery returned it, the documentation exactly as the AI
    call just before returned it for the prompt of that file, and
    [options.output] as the output root. *)
Theorem written_documentation_is_ai_answer fp opts w file doc out r :
  let run := analyzeCodebase host fp opts w in
  In (EvWriteMarkdown file doc out r) (trace_of run) ->
  out = output (options_or_default opts) /\
  exists folder files content before after,
    fp = VString folder /\
    discovered run files /\
    In file files /\
    calls (trace_of run) =
      (before ++
       [EvReadFileSync file (Normal content);
        EvCallGemini (build_prompt (path_relative host folder file) content) (Normal doc);
        EvWriteMarkdown file doc out r] ++ after)%list.
Proof.
  intros run. subst run. unfold discovered.
  by_shape host fp opts w. intros Hin.
  assert (Hcall : In (EvWriteMarkdown file doc out r) (calls (trace_of run)))
    by (apply filter_In; auto).
  destruct Hshape
    as [ Hv | Hv Ho | folder t Hfp Hv Ho Hex Hg Hc Hd Hl
       | folder err w1 t Hfp Hv Ho Hex Hglob Hg Hc Hd Hl
       | folder w1 t Hfp Hv Ho Hex Hglob Hg Hc Hd Hwarn
       | folder fs w1 s e w2 tl r' t Hfp Hv Ho Hex Hglob Hne Hloop Hg Hc Hd Hsum Hr ];
    cbn [trace_of snd] in *; try (rewrite Hc in Hcall; contradiction);
    try contradiction.
  destruct (for_entries_run host folder (options_or_default opts) (length fs)
              (entries fs) 0 0 w1) as (s' & e' & w' & t' & Hrun & Hfacts).
  rewrite Hloop in Hrun. inversion Hrun; subst s' e' w' t'.
  destruct Hfacts as [_ _ Hseq _ _ _ _]. rewrite entries_files in Hseq.
  rewrite Hc in Hcall |- *.
  destruct (sequential_write _ _ _ _ _ _ _ _ Hseq Hcall)
    as (Hout & Hfile & content & before & after & Htr).
  split; [exact Hout |].
  exists folder, fs, content, before, after.
  repeat split; auto.
  exists (folder ++ "/**/*.js").
  assert (H : In (EvGlob (folder ++ "/**/*.js") (Normal fs)) (filter is_glob t))
    by (rewrite Hg; now left).
  now apply filter_In in H.
Qed.

(** X12.  The delays of a run lie between its files: after the steps of
    each discovered file but the last comes one delay of 500 ms, and only
    then the read of the next file; there is no delay before the first
    file and none after the last.  So two AI calls are always separated
    by a delay. *)
Theorem delays_lie_between_files fp opts w files :
  let run := analyzeCodebase host fp opts w in
  discovered run files ->
  exists folder,
    fp = VString folder /\
    Paced (path_relative host folder) (output (options_or_default opts)) files
      (steps (trace_of run)).
Proof.
  intros run Hdisc. subst run.
  assert (Hcases : files = [] \/ files <> [])
    by (destruct files; [left | right]; congruence).
  destruct Hcases as [-> | Hne].
  - destruct (discovered_none host fp opts w Hdisc)
      as (folder & w1 & t & Hfp & -> & Hc & Hd & _).
    exists folder. split; [exact Hfp |].
    cbn [trace_of snd]. rewrite (steps_no_delay t Hd), Hc. constructor.
  - destruct (discovered_files_trace host fp opts w files Hdisc Hne)
      as (folder & w1 & s & e & w2 & tl & Hfp & _ & Hloop & ->).
    exists folder. split; [exact Hfp |].
    cbn [trace_of snd]. unfold steps.
    rewrite !filter_app, filter_intro_events, filter_summary_events by reflexivity.
    rewrite app_nil_r. cbn [app].
    pose proof (for_entries_paced host folder (options_or_default opts) (length files)
                  files 0 (0, 0) w1 eq_refl) as Hpaced.
    fold (entries files) in Hpaced. rewrite Hloop in Hpaced. exact Hpaced.
Qed.

End Extras.

(** ** Witnesses of the further properties *)

Lemma steps_follow_their_predecessor_witness :
  let run := analyzeCodebase Demo.flaky (VString "src") (Some (Demo.options VUndefined)) 0 in
  let before :=
    [EvReadFileSync "src/a.js" (Normal "// src/a.js");
     EvCallGemini (build_prompt "a.js" "// src/a.js") (Normal "DOC:251");
     EvWriteMarkdown "src/a.js" "DOC:251" (VString "docs") (Normal "docs/src/a.js.md");
     EvReadFileSync "src/b.js" (Normal "// src/b.js")] in
  let failed := EvCallGemini (build_prompt "b.js" "// src/b.js") (Throw Demo.quota) in
  let after :=
    [EvReadFileSync "src/lib/c.js" (Normal "// src/lib/c.js");
     EvCallGemini (build_prompt "lib/c.js" "// src/lib/c.js") (Normal "DOC:259");
     EvWriteMarkdown "src/lib/c.js" "DOC:259" (VString "docs")
       (Normal "docs/src/lib/c.js.md")] in
  (discovered run Demo.three_files /\
   calls (trace_of run) = (before ++ failed :: after)%list) /\
  StepRule (path_relative Demo.flaky "src") (VString "docs") before failed after /\
  files_read (trace_of run) = Demo.three_files /\
  count is_read (trace_of run) = 3.
Proof.
  intros run before failed after.
  assert (Hd : discovered run Demo.three_files)
    by (exists "src/**/*.js"; vm_compute; tauto).
  assert (Hc : calls (trace_of run) = (before ++ failed :: after)%list)
    by (vm_compute; reflexivity).
  destruct (steps_follow_their_predecessor Demo.flaky (VString "src")
              (Some (Demo.options VUndefined)) 0) as (_ & Hrule & Hreads & _).
  split; [split; [exact Hd | exact Hc] |].
  split; [exact (Hrule "src" before failed after eq_refl Hc) |].
  exact (Hreads Demo.three_files Hd).
Defined.

Lemma summary_counts_written_documents_witness :
  let run := analyzeCodebase Demo.flaky (VString "src") (Some (Demo.options VUndefined)) 0 in
  discovered run Demo.three_files /\
  Demo.three_files <> [] /\
  In (summary_line (count is_write_ok (trace_of run))) (trace_of run) /\
  count is_write_ok (trace_of run) + length (raised (trace_of run)) = 3.
Proof.
  intros run.
  assert (Hd : discovered run Demo.three_files)
    by (exists "src/**/*.js"; vm_compute; tauto).
  assert (Hne : Demo.three_files <> []) by discriminate.
  split; [exact Hd |]. split; [exact Hne |].
  exact (summary_counts_written_documents Demo.flaky (VString "src")
           (Some (Demo.options VUndefined)) 0 Demo.three_files Hd Hne).
Defined.

Lemma error_warning_iff_exception_witness :
  let run := analyzeCodebase Demo.flaky (VString "src") (Some (Demo.options VUndefined)) 0 in
  discovered run Demo.three_files /\
  Demo.three_files <> [] /\
  filter is_warn (trace_of run) =
    match raised (trace_of run) with
    | [] => []
    | _ :: _ => [error_warning (length (raised (trace_of run)))]
    end.
Proof.
  intros run.
  assert (Hd : discovered run Demo.three_files)
    by (exists "src/**/*.js"; vm_compute; tauto).
  assert (Hne : Demo.three_files <> []) by discriminate.
  split; [exact Hd |]. split; [exact Hne |].
  exact (error_warning_iff_exception Demo.flaky (VString "src")
           (Some (Demo.options VUndefined)) 0 Demo.three_files Hd Hne).
Defined.

Lemma returns_normally_iff_witness :
  (exists folder files w1,
     VString "src" = VString folder /\
     valid_folder (VString "src") = true /\
     ToBoolean (output (options_or_default (Some (Demo.options VUndefined)))) = true /\
     existsSync Demo.steady folder 0 = true /\
     glob Demo.steady (folder ++ "/**/*.js") 0 = (Normal files, w1) /\
     (files = [] \/
      is_string (output (options_or_default (Some (Demo.options VUndefined)))) = true)) /\
  result_of (analyzeCodebase Demo.steady (VString "src") (Some (Demo.options VUndefined)) 0) =
    Normal tt.
Proof.
  assert (H : exists folder files w1,
     VString "src" = VString folder /\
     valid_folder (VString "src") = true /\
     ToBoolean (output (options_or_default (Some (Demo.options VUndefined)))) = true /\
     existsSync Demo.steady folder 0 = true /\
     glob Demo.steady (folder ++ "/**/*.js") 0 = (Normal files, w1) /\
     (files = [] \/
      is_string (output (options_or_default (Some (Demo.options VUndefined)))) = true)).
  { exists "src", Demo.three_files, 0. repeat split. right. reflexivity. }
  split; [exact H |].
  exact (proj2 (returns_normally_iff Demo.steady (VString "src")
                  (Some (Demo.options VUndefined)) 0) H).
Defined.

Lemma non_string_output_throws_after_loop_witness :
  let options := {| output := VBool true; model := VUndefined; verbose := VUndefined |} in
  let run := analyzeCodebase Demo.steady (VString "src") (Some options) 0 in
  (discovered run Demo.three_files /\
   Demo.three_files <> [] /\
   is_string (VBool true) = false) /\
  result_of run = Throw (invalid_arg_type Demo.steady (VBool true)) /\
  logged (trace_of run) (invalid_arg_type Demo.steady (VBool true)) /\
  In (summary_line (count is_write_ok (trace_of run))) (trace_of run) /\
  files_read (trace_of run) = Demo.three_files.
Proof.
  intros options run.
  assert (Hd : discovered run Demo.three_files)
    by (exists "src/**/*.js"; vm_compute; tauto).
  assert (Hne : Demo.three_files <> []) by discriminate.
  assert (Hs : is_string (output (options_or_default (Some options))) = false)
    by reflexivity.
  split; [repeat split; [exact Hd | exact Hne] |].
  exact (non_string_output_throws_after_loop Demo.steady (VString "src")
           (Some options) 0 Demo.three_files Hd Hne Hs).
Defined.

Lemma verbose_is_display_only_witness :
  let terse := Demo.options VUndefined in
  let chatty := Demo.options (VBool true) in
  output terse = output chatty /\
  result_of (analyzeCodebase Demo.flaky (VString "src") (Some terse) 0) =
    result_of (analyzeCodebase Demo.flaky (VString "src") (Some chatty) 0) /\
  world_of (analyzeCodebase Demo.flaky (VString "src") (Some terse) 0) =
    world_of (analyzeCodebase Demo.flaky (VString "src") (Some chatty) 0) /\
  effects (trace_of (analyzeCodebase Demo.flaky (VString "src") (Some terse) 0)) =
    effects (trace_of (analyzeCodebase Demo.flaky (VString "src") (Some chatty) 0)).
Proof.
  intros terse chatty.
  assert (H : output terse = output chatty) by reflexivity.
  split; [exact H |].
  exact (verbose_is_display_only Demo.flaky (VString "src") terse chatty 0 H).
Defined.



Lemma stack_frame_fallback_witness :
  let options := Demo.options (VBool true) in
  let run := process_file Hung.host "src" options 3 0 "src/a.js" (0, 0) 0 in
  let first := "Error: socket hang up" in
  let frame := "    at callGemini (aiEngine.js)" in
  let tail := nl ++ "    at analyzeCodebase (analyzer.js)" ++ nl ++ "    at async main (cli.js)" in
  (ToBoolean (verbose options) = true /\
   In Hung.failure (raised (trace_of run)) /\
   stack Hung.failure = Some (first ++ nl ++ frame ++ tail) /\
   one_line first = true /\
   one_line frame = true /\
   (tail = "" \/ exists more, tail = nl ++ more)) /\
  In (EvConsole Error [VString "   Stack:"; VString "at callGemini (aiEngine.js)"])
     (trace_of run).
Proof.
  intros options run first frame tail.
  assert (Hv : ToBoolean (verbose options) = true) by reflexivity.
  assert (Hin : In Hung.failure (raised (trace_of run)))
    by (vm_compute; left; reflexivity).
  assert (Hs : stack Hung.failure = Some (first ++ nl ++ frame ++ tail)) by reflexivity.
  assert (Hfirst : one_line first = true) by reflexivity.
  assert (Hframe : one_line frame = true) by reflexivity.
  assert (Htail : tail = "" \/ exists more, tail = nl ++ more)
    by (right; eexists; reflexivity).
  split; [repeat split; assumption |].
  exact (proj1 (proj2 (stack_frame_fallback Hung.host "src" options 3 0 "src/a.js"
                         (0, 0) 0 Hung.failure Hv Hin))
           first frame tail Hs Hfirst Hframe Htail).
Defined.

Lemma discovery_is_single_and_rooted_witness :
  (ToBoolean (output (options_or_default None)) = false /\
   existsSync Demo.steady "src" 0 = true) /\
  filter is_glob (trace_of (analyzeCodebase Demo.steady (VString "src") None 0)) = [].
Proof.
  assert (Ho : ToBoolean (output (options_or_default None)) = false) by reflexivity.
  split; [split; [exact Ho | reflexivity] |].
  exact (proj1 (discovery_is_single_and_rooted Demo.steady (VString "src") None 0)
           (or_intror Ho)).
Defined.

Lemma written_documentation_is_ai_answer_witness :
  let run := analyzeCodebase Demo.steady (VString "src") (Some (Demo.options VUndefined)) 0 in
  In (EvWriteMarkdown "src/a.js" "DOC:251" (VString "docs") (Normal "docs/src/a.js.md"))
     (trace_of run) /\
  VString "docs" = output (options_or_default (Some (Demo.options VUndefined))) /\
  exists folder files content before after,
    VString "src" = VString folder /\
    discovered run files /\
    In "src/a.js" files /\
    calls (trace_of run) =
      (before ++
       [EvReadFileSync "src/a.js" (Normal content);
        EvCallGemini (build_prompt (path_relative Demo.steady folder "src/a.js") content)
          (Normal "DOC:251");
        EvWriteMarkdown "src/a.js" "DOC:251" (VString "docs") (Normal "docs/src/a.js.md")]
       ++ after)%list.
Proof.
  intros run.
  assert (H : In (EvWriteMarkdown "src/a.js" "DOC:251" (VString "docs")
                    (Normal "docs/src/a.js.md")) (trace_of run))
    by (vm_compute; tauto).
  split; [exact H |].
  exact (written_documentation_is_ai_answer Demo.steady (VString "src")
           (Some (Demo.options VUndefined)) 0 "src/a.js" "DOC:251" (VString "docs")
           (Normal "docs/src/a.js.md") H).
Defined.

Lemma delays_lie_between_files_witness :
  let run := analyzeCodebase Demo.flaky (VString "src") (Some (Demo.options VUndefined)) 0 in
  discovered run Demo.three_files /\
  exists folder,
    VString "src" = VString folder /\
    Paced (path_relative Demo.flaky folder) (VString "docs") Demo.three_files
      (steps (trace_of run)).
Proof.
  intros run.
  assert (Hd : discovered run Demo.three_files)
    by (exists "src/**/*.js"; vm_compute; tauto).
  split; [exact Hd |].
  exact (delays_lie_between_files Demo.flaky (VString "src")
           (Some (Demo.options VUndefined)) 0 Demo.three_files Hd).
Defined.
